(** * lblight: routing table and backend pool of a reverse-proxy load balancer

    A shallow embedding of [pkg/lblight.go] and the properties of its routing
    and pooling code.

    Conventions of the embedding.
    - A Go [map[string]V] is a [gmap string V]; a nil map and an empty map
      read the same, and are both [∅].
    - [for k, v := range m] visits the entries of [m] in an order the Go
      runtime chooses afresh at every loop.  Each loop over a map therefore
      takes the sequence of entries it visits as an argument; [ranges_over]
      says that a sequence is an enumeration of the map.
    - A [*BackendRouter] is a location [loc] in a store of routers; a
      [*Backend] is the position of the backend in the slice [backends] of
      its router (backends are appended and never removed, so a position
      names one backend for good).
    - [log.Fatalf] ends the process: functions that may reach it return an
      [outcome].
    - The standard library is outside the package: [strings.ToLower],
      [url.Parse] and [ReverseProxy.ServeHTTP] are variables of the section
      [Lblight]; [ascii_ToLower] and [ctl_Parse] instantiate the first two
      where a concrete run is evaluated. *)

From stdpp Require Import gmap strings list fin_maps pretty.
From Stdlib Require Import ZArith Ascii.

Open Scope string_scope.

(** ** Errors and outcomes *)

(** The values built by [fmt.Errorf] in the package, one constructor per
    format string. *)
Inductive error : Type :=
| ErrNoBackend
| ErrNoPath (path : string)
| ErrNoHeader (headerName headerValue : string)
| ErrConflictPath (path : string)
| ErrConflictHeader (header val : string).

(** [err.Error()] *)
Definition Error (e : error) : string :=
  match e with
  | ErrNoBackend => "unable to provide backend for request"
  | ErrNoPath path => "Unable to find matching backend for path " +:+ path
  | ErrNoHeader n v =>
      "Unable to find matching backend for header " +:+ n +:+ " : " +:+ v
  | ErrConflictPath path =>
      "Conflict: Backend path " +:+ path +:+ " already registered"
  | ErrConflictHeader n v =>
      "Conflict: Backend header " +:+ n +:+ " : " +:+ v +:+ " already registered"
  end.

(** A Go result [(T, error)]. *)
Inductive result (A : Type) : Type :=
| Ok (a : A)
| Err (e : error).
Arguments Ok {A} a.
Arguments Err {A} e.

(** A computation that either returns or ends the process ([os.Exit]). *)
Inductive outcome (A : Type) : Type :=
| Return (a : A)
| Exit (code : Z).
Arguments Return {A} a.
Arguments Exit {A} code.

Definition bind {A B : Type} (m : outcome A) (k : A → outcome B) : outcome B :=
  match m with
  | Return a => k a
  | Exit c => Exit c
  end.

(** ** Strings *)

(** [strings.HasPrefix(s, prefix)] *)
Definition HasPrefix (s prefix : string) : bool := String.prefix prefix s.

(** [strings.ToLower] on a string of ASCII bytes: A..Z become a..z, nothing
    else changes. *)
Definition lower_byte (c : ascii) : ascii :=
  let n := nat_of_ascii c in
  if (65 <=? n)%nat && (n <=? 90)%nat then ascii_of_nat (n + 32) else c.

Fixpoint ascii_ToLower (s : string) : string :=
  match s with
  | EmptyString => EmptyString
  | String c rest => String (lower_byte c) (ascii_ToLower rest)
  end.

(** The first test of [url.Parse]: a URL with an ASCII control byte
    (below 0x20, or 0x7f) is rejected.  Everything else is accepted here and
    kept as its text. *)
Definition isCTL (c : ascii) : bool :=
  let n := nat_of_ascii c in (n <? 32)%nat || (n =? 127)%nat.

Fixpoint stringContainsCTLByte (s : string) : bool :=
  match s with
  | EmptyString => false
  | String c rest => isCTL c || stringContainsCTLByte rest
  end.

Definition ctl_Parse (rawURL : string) : option string :=
  if stringContainsCTLByte rawURL then None else Some rawURL.

(** ** Ranging over a map *)

(** [order] is a sequence in which [range m] may visit the entries of [m]. *)
Definition ranges_over {V : Type} (order : list (string * V)) (m : gmap string V) : Prop :=
  order ≡ₚ map_to_list m.

(** ** Data *)

(** [*url.URL]: the package never looks inside it. *)
Definition URL : Type := string.

Record Backend : Type := mkBackend {
  url : URL;
  Alive : bool;
  InUse : bool
  (* ReverseProxy is bound to [url] at construction and never rebound *)
}.

Record BackendRouter : Type := mkBackendRouter {
  host : string;
  port : Z;
  maxBackends : Z;
  acceptedPaths : gmap string bool;
  acceptedHeaders : gmap string string;
  backends : list Backend
}.

Definition loc : Type := nat.

Record LBLight : Type := mkLBLight {
  lport : Z;
  pathPrefixToBackendRouter : gmap string loc;
  headerToBackendRouter : gmap string (gmap string loc)
}.

Record Request : Type := mkRequest {
  RequestURI : string;
  URL_Path : string
}.

(** What has been written to an [http.ResponseWriter]. *)
Definition ResponseWriter : Type := list string.

(** The state a request handler leaves behind. *)
Record handled : Type := mkHandled {
  h_routers : gmap loc BackendRouter;
  h_res : ResponseWriter;
  h_log : list string;
  h_returned : bool       (* false: the handler was unwound by a panic *)
}.

Definition NewBackendRouter (host : string) (port : Z)
    (acceptedHeaders : gmap string string) (acceptedPaths : gmap string bool)
    (maxBackends : Z) : BackendRouter :=
  mkBackendRouter host port maxBackends acceptedPaths acceptedHeaders [].

Definition NewLBLight (port : Z) : LBLight := mkLBLight port ∅ ∅.

Definition set_backends (ber : BackendRouter) (bs : list Backend) : BackendRouter :=
  mkBackendRouter (host ber) (port ber) (maxBackends ber)
    (acceptedPaths ber) (acceptedHeaders ber) bs.

Definition set_InUse (v : bool) (be : Backend) : Backend :=
  mkBackend (url be) (Alive be) v.

Definition set_paths (l : LBLight) (m : gmap string loc) : LBLight :=
  mkLBLight (lport l) m (headerToBackendRouter l).

Definition set_headers (l : LBLight) (m : gmap string (gmap string loc)) : LBLight :=
  mkLBLight (lport l) (pathPrefixToBackendRouter l) m.

(** The four loops of [AddBackendRouter] over the maps of the router. *)
Record ranges : Type := mkRanges {
  checkPaths_order : list (string * bool);
  checkHeaders_order : list (string * string);
  registerPaths_order : list (string * bool);
  registerHeaders_order : list (string * string)
}.

Definition ranges_ok (o : ranges) (ber : BackendRouter) : Prop :=
  ranges_over (checkPaths_order o) (acceptedPaths ber) ∧
  ranges_over (checkHeaders_order o) (acceptedHeaders ber) ∧
  ranges_over (registerPaths_order o) (acceptedPaths ber) ∧
  ranges_over (registerHeaders_order o) (acceptedHeaders ber).

Definition in_order (ber : BackendRouter) : ranges :=
  mkRanges (map_to_list (acceptedPaths ber)) (map_to_list (acceptedHeaders ber))
           (map_to_list (acceptedPaths ber)) (map_to_list (acceptedHeaders ber)).

Section Lblight.

(** [strings.ToLower] *)
Variable ToLower : string → string.
(** [url.Parse]: [None] when it returns an error. *)
Variable url_Parse : string → option URL.
(** [ReverseProxy.ServeHTTP] of the proxy bound to a target: what it has
    written to the response when it stops, and whether it returned ([true])
    or panicked ([false]). *)
Variable ServeHTTP : URL → Request → ResponseWriter → ResponseWriter * bool.

(** ** Backend *)

Definition NewBackend (uri : string) : outcome Backend :=
  match url_Parse uri with
  | None => Exit 1                       (* log.Fatalf *)
  | Some u => Return (mkBackend u false false)
  end.

(** ** BackendRouter *)

(** The loop of [GetBackend]: the index of the first backend not in use. *)
Fixpoint firstSpare (bs : list Backend) : option nat :=
  match bs with
  | [] => None
  | be :: rest => if negb (InUse be) then Some 0%nat else S <$> firstSpare rest
  end.

(** [fmt.Sprintf("http://%s:%d", host, port)] *)
Definition target (ber : BackendRouter) : string :=
  "http://" +:+ host ber +:+ ":" +:+ pretty (port ber).

(** [GetBackend] returns the router as it leaves it, and either the
    position of the backend it hands out or the error. *)
Definition GetBackend (ber : BackendRouter) : outcome (BackendRouter * result nat) :=
  match firstSpare (backends ber) with
  | Some index =>
      Return (set_backends ber (alter (set_InUse true) index (backends ber)), Ok index)
  | None =>
      if (Z.of_nat (length (backends ber)) <=? maxBackends ber)%Z then
        bind (NewBackend (target ber)) (λ be,
          Return (set_backends ber (backends ber ++ [be])%list,
                  Ok (length (backends ber))))
      else Return (ber, Err ErrNoBackend)
  end.

(** ** LBLight: lookups *)

Definition GetBackendRouterByExactPathPrefix (l : LBLight) (path : string) : result loc :=
  let lowerPath := ToLower path in
  match pathPrefixToBackendRouter l !! lowerPath with
  | Some backend => Ok backend
  | None => Err (ErrNoPath path)
  end.

(** The loop of [GetBackendRouterByPathPrefix]; [order] is the sequence in
    which [range l.pathPrefixToBackendRouter] yields the entries of the
    table, and stands for the table in [GetBackendRouterByPathPrefix]. *)
Fixpoint firstPrefix (order : list (string * loc)) (lowerPath : string) : option loc :=
  match order with
  | [] => None
  | (prefix, router) :: rest =>
      if HasPrefix lowerPath prefix then Some router else firstPrefix rest lowerPath
  end.

Definition GetBackendRouterByPathPrefix (order : list (string * loc))
    (path : string) : result loc :=
  let lowerPath := ToLower path in
  match firstPrefix order lowerPath with
  | Some router => Ok router
  | None => Err (ErrNoPath path)
  end.

Definition GetBackendRouterByHeader (l : LBLight) (headerName headerValue : string) : result loc :=
  match headerToBackendRouter l !! headerName with
  | Some headerValues =>
      match headerValues !! headerValue with
      | Some headerNameAndValueBackend => Ok headerNameAndValueBackend
      | None => Err (ErrNoHeader headerName headerValue)
      end
  | None => Err (ErrNoHeader headerName headerValue)
  end.

(** ** LBLight: registration *)

Fixpoint checkPaths (l : LBLight) (order : list (string * bool)) : option error :=
  match order with
  | [] => None
  | (path, _) :: rest =>
      match GetBackendRouterByExactPathPrefix l path with
      | Ok _ => Some (ErrConflictPath path)
      | Err _ => checkPaths l rest
      end
  end.

Fixpoint checkHeaders (l : LBLight) (order : list (string * string)) : option error :=
  match order with
  | [] => None
  | (header, val) :: rest =>
      match GetBackendRouterByHeader l header val with
      | Ok _ => Some (ErrConflictHeader header val)
      | Err _ => checkHeaders l rest
      end
  end.

Fixpoint registerPaths (ber : loc) (order : list (string * bool))
    (m : gmap string loc) : gmap string loc :=
  match order with
  | [] => m
  | (path, _) :: rest => registerPaths ber rest (<[path := ber]> m)
  end.

(** [specificHeaderMap[val] = ber]: when the bucket of [header] is in the
    table, [specificHeaderMap] is that very map and the write lands in the
    table; when it is not, the write lands in a map made on the spot, which
    no one else holds. *)
Fixpoint registerHeaders (ber : loc) (order : list (string * string))
    (m : gmap string (gmap string loc)) : gmap string (gmap string loc) :=
  match order with
  | [] => m
  | (header, val) :: rest =>
      match m !! header with
      | Some specificHeaderMap =>
          registerHeaders ber rest (<[header := <[val := ber]> specificHeaderMap]> m)
      | None => registerHeaders ber rest m
      end
  end.

(** [l.AddBackendRouter(ber)], with [r] the router [ber] points to: the
    table as it is left, and the error ([None] for nil). *)
Definition AddBackendRouter (o : ranges) (l : LBLight) (ber : loc) (r : BackendRouter)
    : LBLight * option error :=
  match checkPaths l (checkPaths_order o) with
  | Some e => (l, Some e)
  | None =>
      match checkHeaders l (checkHeaders_order o) with
      | Some e => (l, Some e)
      | None =>
          let l1 := set_paths l
            (registerPaths ber (registerPaths_order o) (pathPrefixToBackendRouter l)) in
          let l2 := set_headers l1
            (registerHeaders ber (registerHeaders_order o) (headerToBackendRouter l1)) in
          (l2, None)
      end
  end.

(** ** Dispatcher *)

(** [l.getBackend(req)] over the store [routers]: the store as it is left,
    and the router and position of the backend, or the error.  [None] is a
    nil or dangling router pointer, on which the call panics. *)
Definition getBackend (order : list (string * loc)) (routers : gmap loc BackendRouter)
    (req : Request) : outcome (option (gmap loc BackendRouter * result (loc * nat))) :=
  match GetBackendRouterByPathPrefix order (URL_Path req) with
  | Err e => Return (Some (routers, Err e))
  | Ok backendRouter =>
      match routers !! backendRouter with
      | None => Return None
      | Some ber =>
          bind (GetBackend ber) (λ '(ber', r),
            Return (Some (<[backendRouter := ber']> routers,
                          match r with
                          | Ok index => Ok (backendRouter, index)
                          | Err e => Err e
                          end)))
      end
  end.

Definition backendAt (routers : gmap loc BackendRouter) (p : loc * nat) : option Backend :=
  routers !! p.1 ≫= λ ber, backends ber !! p.2.

Definition handleRequestsAndRedirect (order : list (string * loc))
    (routers : gmap loc BackendRouter) (res : ResponseWriter) (req : Request)
    : outcome handled :=
  bind (getBackend order routers req) (λ got,
    match got with
    | None => Return (mkHandled routers res [] false)
    | Some (routers', Err _) =>
        Return (mkHandled routers' res
                  ["Unable to find backend for URL " +:+ RequestURI req] true)
    | Some (routers', Ok backend) =>
        match backendAt routers' backend with
        | None => Return (mkHandled routers' res [] false)
        | Some be =>
            let '(res', returned) := ServeHTTP (url be) req res in
            Return (mkHandled routers' res' [] returned)
        end
    end).

End Lblight.

(** When the table holds the pair [(name, value)] for the router [g]. *)
Definition headerCommitted (l : LBLight) (name value : string) (g : loc) : Prop :=
  ∃ bucket, headerToBackendRouter l !! name = Some bucket ∧ bucket !! value = Some g.

(** A request that [getBackend] answers with an error: no registered prefix
    starts the path, or the router found has no spare backend and may not
    make one. *)
Definition dispatchFails (ToLower : string → string) (order : list (string * loc))
    (routers : gmap loc BackendRouter) (req : Request) : Prop :=
  (∃ e, GetBackendRouterByPathPrefix ToLower order (URL_Path req) = Err e) ∨
  (∃ r ber, GetBackendRouterByPathPrefix ToLower order (URL_Path req) = Ok r ∧
            routers !! r = Some ber ∧
            firstSpare (backends ber) = None ∧
            (maxBackends ber < Z.of_nat (length (backends ber)))%Z).

(** ** Concrete runs *)

Module Run.

(** An upstream that answers every request. *)
Definition upstream : URL → Request → ResponseWriter → ResponseWriter * bool :=
  λ _ _ res, ((res ++ ["200 OK"])%list, true).

Definition get (path : string) : Request := mkRequest path path.

(** A group for ["/a"] with room for one backend:
    [NewBackendRouter("h", 80, nil, map[string]bool{"/a": true}, 1)]. *)
Definition groupA : BackendRouter := NewBackendRouter "h" 80 ∅ {["/a" := true]} 1.

Definition be (inUse : bool) : Backend := mkBackend "http://h:80" false inUse.

(** [groupA] after one, two and three calls of [GetBackend]. *)
Definition groupA1 : BackendRouter := set_backends groupA [be false].
Definition groupA2 : BackendRouter := set_backends groupA [be true].
Definition groupA3 : BackendRouter := set_backends groupA [be true; be false].

(** Two groups on overlapping prefixes. *)
Definition api : BackendRouter := NewBackendRouter "h" 80 ∅ {["/api" := true]} 1.
Definition apiV2 : BackendRouter := NewBackendRouter "h" 81 ∅ {["/api/v2" := true]} 1.

Definition register (l : LBLight) (ber : loc) (r : BackendRouter) : LBLight :=
  (AddBackendRouter ascii_ToLower (in_order r) l ber r).1.

Definition apiTable : LBLight := register (register (NewLBLight 443) 0 api) 1 apiV2.

(** Groups that differ in the letter case of what they accept. *)
Definition upperA : BackendRouter := NewBackendRouter "h" 80 ∅ {["/A" := true]} 1.
Definition upperA' : BackendRouter := NewBackendRouter "h" 81 ∅ {["/A" := true]} 1.
Definition upperAPI : BackendRouter := NewBackendRouter "h" 80 ∅ {["/API" := true]} 1.
Definition byHeader : BackendRouter := NewBackendRouter "h" 80 {["X-Env" := "prod"]} ∅ 1.

(** A table that holds one header pair. *)
Definition headerTable : LBLight := mkLBLight 443 ∅ {["X-Env" := {["prod" := 0%nat]}]}.

(** A target address with a line feed in the host. *)
Definition badTarget : string := "http://h" +:+ String (ascii_of_nat 10) "x:80".

Definition badGroup : BackendRouter :=
  NewBackendRouter ("h" +:+ String (ascii_of_nat 10) "x") 80 ∅ {["/b" := true]} 1.

(** The store after [n] requests have been handled one after the other. *)
Fixpoint serve (order : list (string * loc)) (n : nat)
    (routers : gmap loc BackendRouter) (req : Request) : outcome (gmap loc BackendRouter) :=
  match n with
  | O => Return routers
  | S k =>
      bind (serve order k routers req) (λ routers',
        bind (handleRequestsAndRedirect ascii_ToLower ctl_Parse upstream order routers' [] req)
          (λ hd, Return (h_routers hd)))
  end.

End Run.

(** ** Sequences of calls *)

(** [n] calls of [GetBackend] on one router, one after the other: the router
    as the last call leaves it, and what each call returned. *)
Fixpoint GetBackend_times (url_Parse : string → option URL) (n : nat)
    (ber : BackendRouter) : outcome (BackendRouter * list (result nat)) :=
  match n with
  | O => Return (ber, [])
  | S k =>
      bind (GetBackend url_Parse ber) (λ '(ber1, r),
        bind (GetBackend_times url_Parse k ber1) (λ '(ber2, rs),
          Return (ber2, r :: rs)))
  end.

(** A start-up sequence: [AddBackendRouter] called for each router in turn
    on the table the previous call left, whatever each call returned. *)
Fixpoint AddBackendRouters (ToLower : string → string)
    (calls : list (ranges * loc * BackendRouter)) (l : LBLight) : LBLight :=
  match calls with
  | [] => l
  | (o, ber, r) :: rest =>
      AddBackendRouters ToLower rest (AddBackendRouter ToLower o l ber r).1
  end.

(** Every backend of the router points at the target of the router. *)
Definition on_target (url_Parse : string → option URL) (ber : BackendRouter) : Prop :=
  ∀ i be, backends ber !! i = Some be → url_Parse (target ber) = Some (url be).

(** What [n] pairs of calls return on a pool that grows from [k] backends:
    each new position twice. *)
Definition twice_each (k n : nat) : list (result nat) :=
  flat_map (λ i, [Ok i; Ok i]) (seq k n).

(** * Properties *)

Section Properties.

Variable ToLower : string → string.
Variable url_Parse : string → option URL.
Variable ServeHTTP : URL → Request → ResponseWriter → ResponseWriter * bool.

(** ** The pool *)

Lemma firstSpare_Some (bs : list Backend) (index : nat) :
  firstSpare bs = Some index →
  ∃ be, bs !! index = Some be ∧ InUse be = false.
Proof.
  revert index. induction bs as [|b bs IH]; intros index; simpl; [done|].
  destruct (InUse b) eqn:Hb; simpl.
  - destruct (firstSpare bs) as [i|] eqn:Hs; simpl; [|done].
    intros [= <-]. simpl. by apply IH.
  - intros [= <-]. by exists b.
Qed.

Lemma firstSpare_None (bs : list Backend) :
  firstSpare bs = None → ∀ i be, bs !! i = Some be → InUse be = true.
Proof.
  induction bs as [|b bs IH]; simpl; [by intros _ i be; rewrite lookup_nil|].
  destruct (InUse b) eqn:Hb; simpl; [|done].
  destruct (firstSpare bs); simpl; [done|]. intros _ [|i] be; simpl.
  - by intros [= <-].
  - by apply IH.
Qed.

(** [GetBackend] never clears an [InUse] flag, and keeps every backend at
    its position. *)
Lemma GetBackend_keeps_InUse (ber ber' : BackendRouter) (r : result nat) :
  GetBackend url_Parse ber = Return (ber', r) →
  ∀ i be, backends ber !! i = Some be → InUse be = true →
  ∃ be', backends ber' !! i = Some be' ∧ InUse be' = true.
Proof.
  unfold GetBackend. destruct (firstSpare (backends ber)) as [index|] eqn:Hs.
  - intros [= <- <-] i be Hi Hbe. simpl.
    destruct (decide (i = index)) as [->|Hne].
    + exists (set_InUse true be). by rewrite list_lookup_alter_eq, Hi.
    + exists be. by rewrite list_lookup_alter_ne by done.
  - case_match.
    + unfold NewBackend. destruct (url_Parse (target ber)); simpl; [|done].
      intros [= <- <-] i be Hi Hbe. exists be. split; [|done]. simpl.
      by apply lookup_app_l_Some.
    + intros [= <- <-]. eauto.
Qed.

(** A spare backend is handed out marked. *)
Lemma GetBackend_spare (ber : BackendRouter) (index : nat) :
  firstSpare (backends ber) = Some index →
  ∃ ber' be', GetBackend url_Parse ber = Return (ber', Ok index) ∧
    backends ber' !! index = Some be' ∧ InUse be' = true.
Proof.
  intros Hs. unfold GetBackend. rewrite Hs.
  destruct (firstSpare_Some _ _ Hs) as (be & Hbe & _).
  eexists _, (set_InUse true be). split; [done|]. simpl.
  by rewrite list_lookup_alter_eq, Hbe.
Qed.

(** Past its bound, a router with nothing spare is left as it is. *)
Lemma GetBackend_exhausted (ber : BackendRouter) :
  firstSpare (backends ber) = None →
  (maxBackends ber < Z.of_nat (length (backends ber)))%Z →
  GetBackend url_Parse ber = Return (ber, Err ErrNoBackend).
Proof.
  intros Hs Hlt. unfold GetBackend. rewrite Hs.
  by destruct (Z.leb_spec (Z.of_nat (length (backends ber))) (maxBackends ber)); [lia|].
Qed.

(** A backend that is in use is not the one handed out. *)
Lemma GetBackend_skips_InUse (ber ber' : BackendRouter) (index : nat) :
  GetBackend url_Parse ber = Return (ber', Ok index) →
  ∀ be, backends ber !! index = Some be → InUse be = false.
Proof.
  unfold GetBackend. destruct (firstSpare (backends ber)) as [i|] eqn:Hs.
  - intros [= <- <-] be Hbe.
    destruct (firstSpare_Some _ _ Hs) as (be0 & Hbe0 & Hfree). congruence.
  - case_match; [|done]. unfold NewBackend.
    destruct (url_Parse (target ber)); simpl; [|done].
    intros [= <- <-] be Hbe. apply lookup_lt_Some in Hbe. lia.
Qed.

(** The bound that the pool does keep is one above [maxBackends]. *)
Lemma GetBackend_bound (ber ber' : BackendRouter) (r : result nat) :
  GetBackend url_Parse ber = Return (ber', r) →
  (Z.of_nat (length (backends ber)) ≤ maxBackends ber + 1)%Z →
  maxBackends ber' = maxBackends ber ∧
  (Z.of_nat (length (backends ber')) ≤ maxBackends ber + 1)%Z.
Proof.
  unfold GetBackend. destruct (firstSpare (backends ber)) as [i|].
  - intros [= <- <-] Hle. simpl. by rewrite length_alter.
  - destruct (Z.leb_spec (Z.of_nat (length (backends ber))) (maxBackends ber)).
    + unfold NewBackend. destruct (url_Parse (target ber)); simpl; [|done].
      intros [= <- <-] _. simpl. rewrite length_app. simpl. lia.
    + by intros [= <- <-].
Qed.

Lemma GetBackend_Exit (ber : BackendRouter) (code : Z) :
  GetBackend url_Parse ber = Exit code →
  code = 1%Z ∧ url_Parse (target ber) = None ∧ firstSpare (backends ber) = None.
Proof.
  unfold GetBackend. destruct (firstSpare (backends ber)); [done|].
  case_match; [|done]. unfold NewBackend.
  destruct (url_Parse (target ber)); simpl; [done|]. by intros [= <-].
Qed.

(** ** Lookups *)

Lemma firstPrefix_Some (order : list (string * loc)) (lowerPath : string) (router : loc) :
  firstPrefix order lowerPath = Some router →
  ∃ before prefix after,
    order = (before ++ (prefix, router) :: after)%list ∧
    HasPrefix lowerPath prefix = true ∧
    ∀ p r, (p, r) ∈ before → HasPrefix lowerPath p = false.
Proof.
  induction order as [|[p r] order IH]; simpl; [done|].
  destruct (HasPrefix lowerPath p) eqn:Hp.
  - intros [= <-]. exists [], p, order. split_and!; [done..|].
    intros ?? Hin. by apply elem_of_nil in Hin.
  - intros (before & prefix & after & -> & Hm & Hb)%IH.
    exists ((p, r) :: before), prefix, after. split_and!; [done..|].
    intros p' r' [[= -> ->]|Hin]%elem_of_cons; eauto.
Qed.

Lemma firstPrefix_None (order : list (string * loc)) (lowerPath : string) :
  firstPrefix order lowerPath = None ↔
  ∀ p r, (p, r) ∈ order → HasPrefix lowerPath p = false.
Proof.
  induction order as [|[p r] order IH]; simpl.
  - split; [|done]. intros _ ?? Hin. by apply elem_of_nil in Hin.
  - destruct (HasPrefix lowerPath p) eqn:Hp.
    + split; [done|]. intros H. specialize (H p r). rewrite Hp in H.
      discriminate H. by left.
    + rewrite IH. split.
      * intros H p' r' [[= -> ->]|Hin]%elem_of_cons; eauto.
      * intros H p' r' Hin. apply (H p' r'). by right.
Qed.

Lemma ranges_over_lookup {V : Type} (order : list (string * V)) (m : gmap string V)
    (k : string) (v : V) :
  ranges_over order m → ((k, v) ∈ order ↔ m !! k = Some v).
Proof.
  unfold ranges_over. intros ->. apply elem_of_map_to_list.
Qed.

(** ** Registration *)

Lemma in_order_ok (ber : BackendRouter) : ranges_ok (in_order ber) ber.
Proof. by unfold ranges_ok, ranges_over. Qed.

Lemma registerHeaders_dom (ber : loc) (order : list (string * string))
    (m : gmap string (gmap string loc)) :
  dom (registerHeaders ber order m) = dom m.
Proof.
  revert m. induction order as [|[header val] order IHorder]; intros m; simpl; [done|].
  destruct (m !! header) as [bucket|] eqn:Hb; [|done].
  rewrite IHorder, dom_insert_L. apply elem_of_dom_2 in Hb.
  apply subseteq_union_1_L. by apply singleton_subseteq_l.
Qed.

(** Registration never adds a bucket to the header table. *)
Lemma AddBackendRouter_headers_dom (o : ranges) (l : LBLight) (ber : loc) (r : BackendRouter) :
  dom (headerToBackendRouter (AddBackendRouter ToLower o l ber r).1) =
  dom (headerToBackendRouter l).
Proof.
  unfold AddBackendRouter.
  destruct (checkPaths ToLower l (checkPaths_order o)); [done|].
  destruct (checkHeaders l (checkHeaders_order o)); [done|].
  simpl. apply registerHeaders_dom.
Qed.

(** A registration that reports a conflict leaves the table as it was. *)
Lemma AddBackendRouter_conflict_commits_nothing (o : ranges) (l : LBLight) (ber : loc)
    (r : BackendRouter) (e : error) :
  (AddBackendRouter ToLower o l ber r).2 = Some e →
  (AddBackendRouter ToLower o l ber r).1 = l.
Proof.
  unfold AddBackendRouter.
  destruct (checkPaths ToLower l (checkPaths_order o)); [done|].
  by destruct (checkHeaders l (checkHeaders_order o)).
Qed.

(** ** The dispatcher *)

Lemma backendAt_insert_keeps (routers : gmap loc BackendRouter) (r : loc)
    (ber ber' : BackendRouter) (rr : result nat) :
  routers !! r = Some ber →
  GetBackend url_Parse ber = Return (ber', rr) →
  ∀ p be, backendAt routers p = Some be → InUse be = true →
  ∃ be', backendAt (<[r := ber']> routers) p = Some be' ∧ InUse be' = true.
Proof.
  intros Hr HG [r0 i] be. unfold backendAt. simpl.
  destruct (decide (r0 = r)) as [->|Hne].
  - rewrite Hr, lookup_insert_eq. simpl. intros Hi Hbe.
    by eapply GetBackend_keeps_InUse.
  - rewrite lookup_insert_ne by done. eauto.
Qed.

(** ** Claims that hold for every input *)

(** C4, as the code has it: whatever the order in which the table is
    ranged over, [GetBackendRouterByPathPrefix] returns a router registered
    under a prefix, as stored, that starts the lower-cased path, namely the
    first such prefix in the order of the loop (not the longest one); it
    returns the no-match error exactly when no registered prefix starts the
    lower-cased path. *)
Theorem GetBackendRouterByPathPrefix_first_match (l : LBLight)
    (order : list (string * loc)) (path : string) :
  ranges_over order (pathPrefixToBackendRouter l) →
  (∀ router, GetBackendRouterByPathPrefix ToLower order path = Ok router →
     ∃ before prefix after,
       order = (before ++ (prefix, router) :: after)%list ∧
       pathPrefixToBackendRouter l !! prefix = Some router ∧
       HasPrefix (ToLower path) prefix = true ∧
       ∀ p r, (p, r) ∈ before → HasPrefix (ToLower path) p = false) ∧
  (GetBackendRouterByPathPrefix ToLower order path = Err (ErrNoPath path) ↔
     ∀ prefix router, pathPrefixToBackendRouter l !! prefix = Some router →
       HasPrefix (ToLower path) prefix = false) ∧
  ((∃ router, GetBackendRouterByPathPrefix ToLower order path = Ok router) ∨
   GetBackendRouterByPathPrefix ToLower order path = Err (ErrNoPath path)).
Proof.
  intros Hover. unfold GetBackendRouterByPathPrefix.
  destruct (firstPrefix order (ToLower path)) as [router|] eqn:Hf.
  - apply firstPrefix_Some in Hf as (before & prefix & after & Ho & Hm & Hb).
    assert (pathPrefixToBackendRouter l !! prefix = Some router) as Hreg.
    { apply (ranges_over_lookup order); [done|].
      rewrite Ho. apply elem_of_app. right. by left. }
    split_and!.
    + intros ? [= <-]. by exists before, prefix, after.
    + split; [done|]. intros Hnone. by rewrite (Hnone _ _ Hreg) in Hm.
    + left. by exists router.
  - split_and!; [done| |by right].
    split; [|done]. intros _ prefix router Hreg.
    apply (proj1 (firstPrefix_None _ _) Hf prefix router).
    by apply (ranges_over_lookup order (pathPrefixToBackendRouter l)).
Qed.

(** C6, as the code has it: [handleRequestsAndRedirect] releases nothing.
    Either the process ends in [log.Fatalf] with status 1, or the handler
    stops (returning, or unwound by a panic of the forwarding call) and then
    every backend of every router that was in use before the request is
    still in use after it, and a spare backend that the request took from
    the pool is left marked in use. *)
Theorem handleRequestsAndRedirect_never_releases (order : list (string * loc))
    (routers : gmap loc BackendRouter) (res : ResponseWriter) (req : Request) :
  match handleRequestsAndRedirect ToLower url_Parse ServeHTTP order routers res req with
  | Exit code => code = 1%Z
  | Return hd =>
      (∀ p be, backendAt routers p = Some be → InUse be = true →
         ∃ be', backendAt (h_routers hd) p = Some be' ∧ InUse be' = true) ∧
      (∀ r ber index,
         GetBackendRouterByPathPrefix ToLower order (URL_Path req) = Ok r →
         routers !! r = Some ber →
         firstSpare (backends ber) = Some index →
         ∃ be', backendAt (h_routers hd) (r, index) = Some be' ∧ InUse be' = true)
  end.
Proof.
  unfold handleRequestsAndRedirect, getBackend.
  destruct (GetBackendRouterByPathPrefix ToLower order (URL_Path req)) as [r|e]; simpl;
    [|by split; [eauto|]].
  destruct (routers !! r) as [ber|] eqn:Hr; simpl;
    [|by split; [eauto|intros ??? [= <-]; rewrite Hr]].
  destruct (GetBackend url_Parse ber) as [[ber' rr]|code] eqn:HG; simpl;
    [|by apply GetBackend_Exit in HG as [-> _]].
  assert (∀ hd, h_routers hd = <[r := ber']> routers →
    (∀ p be, backendAt routers p = Some be → InUse be = true →
       ∃ be', backendAt (h_routers hd) p = Some be' ∧ InUse be' = true) ∧
    (∀ r0 ber0 index, Ok r = Ok r0 → routers !! r0 = Some ber0 →
       firstSpare (backends ber0) = Some index →
       ∃ be', backendAt (h_routers hd) (r0, index) = Some be' ∧ InUse be' = true))
    as Hkeep.
  { intros hd ->. split; [by eapply backendAt_insert_keeps|].
    intros r0 ber0 index [= <-] Hr0 Hs. rewrite Hr in Hr0. injection Hr0 as <-.
    destruct (GetBackend_spare ber index Hs) as (ber2 & be2 & HG2 & Hbe2 & Hin).
    rewrite HG in HG2. injection HG2 as -> _.
    exists be2. unfold backendAt. simpl. by rewrite lookup_insert_eq. }
  destruct rr as [index|e]; [|by apply Hkeep].
  destruct (backendAt (<[r:=ber']> routers) (r, index)); [|by apply Hkeep].
  destruct (ServeHTTP (url b) req res). by apply Hkeep.
Qed.

(** C8, as the code has it: on a target address that [url.Parse] rejects,
    [NewBackend] returns no error; it ends the process through [log.Fatalf]
    (exit status 1).  It is called when a pool grows, so [GetBackend] on a
    router with such a target, nothing spare and room left ends the process
    as well. *)
Theorem NewBackend_unparsable_exits (uri : string) :
  url_Parse uri = None →
  NewBackend url_Parse uri = Exit 1 ∧
  ∀ ber, target ber = uri →
    firstSpare (backends ber) = None →
    (Z.of_nat (length (backends ber)) ≤ maxBackends ber)%Z →
    GetBackend url_Parse ber = Exit 1.
Proof.
  intros Hparse. split.
  - unfold NewBackend. by rewrite Hparse.
  - intros ber Ht Hs Hle. unfold GetBackend, NewBackend. rewrite Hs, Ht, Hparse.
    by destruct (Z.leb_spec (Z.of_nat (length (backends ber))) (maxBackends ber)); [|lia].
Qed.

(** C9, as the code has it: for a request whose path resolves to no router,
    and for a request whose router has nothing spare and is past its bound,
    [handleRequestsAndRedirect] logs one error line and returns; nothing is
    written to the response, the forwarding call is not made and the routers
    are left as they were. *)
Theorem handleRequestsAndRedirect_failure_writes_nothing (order : list (string * loc))
    (routers : gmap loc BackendRouter) (res : ResponseWriter) (req : Request) :
  dispatchFails ToLower order routers req →
  handleRequestsAndRedirect ToLower url_Parse ServeHTTP order routers res req =
  Return (mkHandled routers res ["Unable to find backend for URL " +:+ RequestURI req] true).
Proof.
  unfold handleRequestsAndRedirect, getBackend.
  intros [[e ->]|(r & ber & -> & Hr & Hs & Hlt)]; [done|].
  rewrite Hr, (GetBackend_exhausted ber Hs Hlt). simpl.
  by rewrite insert_id.
Qed.

End Properties.

(** * The code on concrete inputs *)

(** C1, at a failing input.  A group with [maxBackends = 1]: the first call
    of [GetBackend] makes a backend, the second hands the same one out and
    marks it; at the third call one backend exists, as many as
    [maxBackends], and none is spare, where the claim has the call fail;
    the code makes a second backend and the pool holds two. *)
Theorem GetBackend_grows_past_maxBackends :
  GetBackend ctl_Parse Run.groupA = Return (Run.groupA1, Ok 0%nat) ∧
  GetBackend ctl_Parse Run.groupA1 = Return (Run.groupA2, Ok 0%nat) ∧
  firstSpare (backends Run.groupA2) = None ∧
  Z.of_nat (length (backends Run.groupA2)) = maxBackends Run.groupA2 ∧
  GetBackend ctl_Parse Run.groupA2 = Return (Run.groupA3, Ok 1%nat) ∧
  (maxBackends Run.groupA3 < Z.of_nat (length (backends Run.groupA3)))%Z.
Proof. by vm_compute. Qed.

(** C2, at a failing input.  On a fresh group the backend that [GetBackend]
    makes is returned with [InUse = false], and the next call, with no
    release in between, returns the same backend. *)
Theorem GetBackend_hands_new_backend_out_twice :
  GetBackend ctl_Parse Run.groupA = Return (Run.groupA1, Ok 0%nat) ∧
  InUse <$> backends Run.groupA1 !! 0%nat = Some false ∧
  GetBackend ctl_Parse Run.groupA1 = Return (Run.groupA2, Ok 0%nat).
Proof. by vm_compute. Qed.

(** C3, at a failing input.  Registering a group that accepts the header
    ["X-Env: prod"] in a fresh table reports no error and leaves the table
    empty; the lookup of that pair then fails. *)
Theorem AddBackendRouter_loses_new_header_bucket :
  AddBackendRouter ascii_ToLower (in_order Run.byHeader) (NewLBLight 443) 0%nat Run.byHeader
    = (NewLBLight 443, None) ∧
  GetBackendRouterByHeader (NewLBLight 443) "X-Env" "prod"
    = Err (ErrNoHeader "X-Env" "prod").
Proof. by vm_compute. Qed.


(** C4 fails as stated.  With ["/api"] and ["/api/v2"] registered, a loop
    that meets ["/api"] first resolves ["/api/v2/users"] to the group of
    ["/api"], though ["/api/v2"] is registered, matches and is longer; a
    loop that meets ["/api/v2"] first resolves it to the other group. *)
Lemma longest_prefix_not_selected :
  ranges_over [("/api", 0%nat); ("/api/v2", 1%nat)] (pathPrefixToBackendRouter Run.apiTable) ∧
  ranges_over [("/api/v2", 1%nat); ("/api", 0%nat)] (pathPrefixToBackendRouter Run.apiTable) ∧
  HasPrefix (ascii_ToLower "/api/v2/users") "/api/v2" = true ∧
  GetBackendRouterByPathPrefix ascii_ToLower
    [("/api", 0%nat); ("/api/v2", 1%nat)] "/api/v2/users" = Ok 0%nat ∧
  GetBackendRouterByPathPrefix ascii_ToLower
    [("/api/v2", 1%nat); ("/api", 0%nat)] "/api/v2/users" = Ok 1%nat.
Proof.
  unfold ranges_over. split_and!; try by vm_compute.
  vm_compute. apply perm_swap.
Qed.

Lemma GetBackendRouterByPathPrefix_first_match_witness :
  ranges_over (map_to_list (pathPrefixToBackendRouter Run.apiTable))
              (pathPrefixToBackendRouter Run.apiTable) ∧
  ((∃ router, GetBackendRouterByPathPrefix ascii_ToLower
      (map_to_list (pathPrefixToBackendRouter Run.apiTable)) "/api/other" = Ok router) ∨
   GetBackendRouterByPathPrefix ascii_ToLower
     (map_to_list (pathPrefixToBackendRouter Run.apiTable)) "/api/other"
     = Err (ErrNoPath "/api/other")).
Proof.
  split; [unfold ranges_over; reflexivity|].
  apply (GetBackendRouterByPathPrefix_first_match ascii_ToLower Run.apiTable).
  unfold ranges_over; reflexivity.
Defined.

(** C5, at a failing input.  The prefix ["/API"] is stored as written, and
    the path is lower-cased before it is compared: ["/api/x"] does not
    resolve to the group registered for ["/API"], nor does ["/API/x"]. *)
Theorem upper_case_prefix_never_matches :
  AddBackendRouter ascii_ToLower (in_order Run.upperAPI) (NewLBLight 443) 0%nat Run.upperAPI
    = (mkLBLight 443 {["/API" := 0%nat]} ∅, None) ∧
  map_to_list ({["/API" := 0%nat]} : gmap string loc) = [("/API", 0%nat)] ∧
  GetBackendRouterByPathPrefix ascii_ToLower [("/API", 0%nat)] "/api/x"
    = Err (ErrNoPath "/api/x") ∧
  GetBackendRouterByPathPrefix ascii_ToLower [("/API", 0%nat)] "/API/x"
    = Err (ErrNoPath "/API/x").
Proof. by vm_compute. Qed.

(** C6 fails as stated.  Two requests for ["/a/x"] on a group for ["/a"]:
    the second takes the backend that the first one made, the forwarding
    call returns, and the backend is still marked in use when the handler
    has returned. *)
Lemma backend_left_in_use :
  Run.serve [("/a", 0%nat)] 1 {[0%nat := Run.groupA]} (Run.get "/a/x")
    = Return {[0%nat := Run.groupA1]} ∧
  handleRequestsAndRedirect ascii_ToLower ctl_Parse Run.upstream [("/a", 0%nat)]
    {[0%nat := Run.groupA1]} [] (Run.get "/a/x")
    = Return (mkHandled {[0%nat := Run.groupA2]} ["200 OK"] [] true) ∧
  InUse <$> backendAt {[0%nat := Run.groupA2]} (0%nat, 0%nat) = Some true.
Proof. by vm_compute. Qed.

(** C7, at a failing input.  A first group holds ["/A"]; registering a
    second group for ["/A"] reports no conflict, because the table is
    searched for ["/a"], and ["/A"] passes to the second group. *)
Theorem AddBackendRouter_misses_upper_case_conflict :
  pathPrefixToBackendRouter (Run.register (NewLBLight 443) 0%nat Run.upperA) !! "/A"
    = Some 0%nat ∧
  AddBackendRouter ascii_ToLower (in_order Run.upperA')
    (Run.register (NewLBLight 443) 0%nat Run.upperA) 1%nat Run.upperA'
    = (mkLBLight 443 {["/A" := 1%nat]} ∅, None).
Proof. by vm_compute. Qed.

(** The example of the claim itself holds: a second group for ["/a"] is
    refused and the first one keeps the prefix. *)
Lemma AddBackendRouter_lower_case_conflict :
  AddBackendRouter ascii_ToLower (in_order Run.groupA)
    (Run.register (NewLBLight 443) 0%nat Run.groupA) 1%nat Run.groupA
    = (mkLBLight 443 {["/a" := 0%nat]} ∅, Some (ErrConflictPath "/a")).
Proof. by vm_compute. Qed.

(** C8 fails as stated.  [url.Parse] rejects a target with a line feed in
    it, and [NewBackend] ends the process; so does the first [GetBackend]
    of a group whose host has a line feed in it. *)
Lemma NewBackend_bad_target_exits :
  ctl_Parse Run.badTarget = None ∧
  NewBackend ctl_Parse Run.badTarget = Exit 1 ∧
  target Run.badGroup = Run.badTarget ∧
  GetBackend ctl_Parse Run.badGroup = Exit 1.
Proof. by vm_compute. Qed.

Lemma NewBackend_unparsable_exits_witness :
  ctl_Parse Run.badTarget = None ∧
  NewBackend ctl_Parse Run.badTarget = Exit 1 ∧
  ∀ ber, target ber = Run.badTarget →
    firstSpare (backends ber) = None →
    (Z.of_nat (length (backends ber)) ≤ maxBackends ber)%Z →
    GetBackend ctl_Parse ber = Exit 1.
Proof.
  split; [reflexivity|].
  apply (NewBackend_unparsable_exits ctl_Parse Run.badTarget). reflexivity.
Defined.

(** C9 fails as stated.  A request that no prefix matches, and a request to
    a group that is past its bound with every backend in use (the group for
    ["/a"] after four requests), leave the response empty; the handler has
    logged a line and returned. *)
Lemma failed_request_gets_no_response :
  handleRequestsAndRedirect ascii_ToLower ctl_Parse Run.upstream [] ∅ [] (Run.get "/x")
    = Return (mkHandled ∅ [] ["Unable to find backend for URL /x"] true) ∧
  Run.serve [("/a", 0%nat)] 4 {[0%nat := Run.groupA]} (Run.get "/a/x")
    = Return {[0%nat := set_backends Run.groupA [Run.be true; Run.be true]]} ∧
  handleRequestsAndRedirect ascii_ToLower ctl_Parse Run.upstream [("/a", 0%nat)]
    {[0%nat := set_backends Run.groupA [Run.be true; Run.be true]]} [] (Run.get "/a/x")
    = Return (mkHandled {[0%nat := set_backends Run.groupA [Run.be true; Run.be true]]}
                [] ["Unable to find backend for URL /a/x"] true).
Proof. by vm_compute. Qed.

Lemma handleRequestsAndRedirect_failure_writes_nothing_witness :
  dispatchFails ascii_ToLower [] ∅ (Run.get "/x") ∧
  handleRequestsAndRedirect ascii_ToLower ctl_Parse Run.upstream [] ∅ [] (Run.get "/x")
    = Return (mkHandled ∅ [] ["Unable to find backend for URL " +:+ "/x"] true).
Proof.
  assert (dispatchFails ascii_ToLower [] ∅ (Run.get "/x")) as Hfails.
  { left. eexists. reflexivity. }
  split; [exact Hfails|].
  exact (handleRequestsAndRedirect_failure_writes_nothing
           ascii_ToLower ctl_Parse Run.upstream [] ∅ [] (Run.get "/x") Hfails).
Defined.

(** On a table that holds a bucket, the lookup compares letter for letter:
    strings that differ from the held pair in letter case only are not
    found. *)
Lemma GetBackendRouterByHeader_other_case :
  GetBackendRouterByHeader Run.headerTable "x-env" "prod" = Err (ErrNoHeader "x-env" "prod") ∧
  GetBackendRouterByHeader Run.headerTable "X-Env" "PROD" = Err (ErrNoHeader "X-Env" "PROD").
Proof. by vm_compute. Qed.

(** * Further properties of the pool *)

Section Pool.

Variable url_Parse : string → option URL.

Lemma firstSpare_None_iff (bs : list Backend) :
  firstSpare bs = None ↔ ∀ i be, bs !! i = Some be → InUse be = true.
Proof.
  split; [apply firstSpare_None|].
  intros Hall. destruct (firstSpare bs) as [i|] eqn:Hs; [|done].
  destruct (firstSpare_Some _ _ Hs) as (be & Hbe & Hfree).
  rewrite (Hall _ _ Hbe) in Hfree. done.
Qed.

Lemma firstSpare_first (bs : list Backend) (index : nat) :
  firstSpare bs = Some index →
  ∀ j be, (j < index)%nat → bs !! j = Some be → InUse be = true.
Proof.
  revert index. induction bs as [|b bs IHbs]; intros index; simpl; [done|].
  destruct (InUse b) eqn:Hb; simpl.
  - destruct (firstSpare bs) as [i|] eqn:Hs; simpl; [|done].
    intros [= <-] [|j] be Hlt; simpl.
    + by intros [= <-].
    + apply (IHbs i); [done|lia].
  - intros [= <-] j be Hlt. lia.
Qed.

Lemma firstSpare_lowest (bs : list Backend) (i : nat) (be : Backend) :
  bs !! i = Some be → InUse be = false →
  (∀ j be', (j < i)%nat → bs !! j = Some be' → InUse be' = true) →
  firstSpare bs = Some i.
Proof.
  intros Hi Hfree Hbefore.
  destruct (firstSpare bs) as [k|] eqn:Hs.
  - destruct (firstSpare_Some _ _ Hs) as (bk & Hk & Hkfree).
    destruct (Nat.lt_trichotomy k i) as [Hlt|[->|Hgt]]; [|done|].
    + rewrite (Hbefore _ _ Hlt Hk) in Hkfree. done.
    + rewrite (firstSpare_first _ _ Hs _ _ Hgt Hi) in Hfree. done.
  - rewrite (firstSpare_None _ Hs _ _ Hi) in Hfree. done.
Qed.

(** X1.  First free: when the backend at position [i] is spare and every
    backend before it is in use, [GetBackend] hands out position [i], marks
    that backend and changes nothing else, whatever lies behind it and
    whatever [maxBackends] is. *)
Theorem GetBackend_first_free (ber : BackendRouter) (i : nat) (be : Backend) :
  backends ber !! i = Some be →
  InUse be = false →
  (∀ j be', (j < i)%nat → backends ber !! j = Some be' → InUse be' = true) →
  GetBackend url_Parse ber =
    Return (set_backends ber (<[i := set_InUse true be]> (backends ber)), Ok i).
Proof.
  intros Hi Hfree Hbefore. unfold GetBackend.
  rewrite (firstSpare_lowest _ _ _ Hi Hfree Hbefore).
  do 3 f_equal. apply list_eq. intros j.
  destruct (decide (j = i)) as [->|Hne].
  - rewrite list_lookup_alter_eq, Hi. simpl.
    by rewrite list_lookup_insert_eq by by eapply lookup_lt_Some.
  - by rewrite list_lookup_alter_ne, list_lookup_insert_ne.
Qed.

Lemma GetBackend_Err_inv (ber ber' : BackendRouter) (e : error) :
  GetBackend url_Parse ber = Return (ber', Err e) →
  ber' = ber ∧ e = ErrNoBackend ∧ firstSpare (backends ber) = None ∧
  (maxBackends ber < Z.of_nat (length (backends ber)))%Z.
Proof.
  unfold GetBackend.
  destruct (firstSpare (backends ber)) as [i|] eqn:Hs; [done|].
  destruct (Z.leb_spec (Z.of_nat (length (backends ber))) (maxBackends ber)).
  - unfold NewBackend. by destruct (url_Parse (target ber)).
  - by intros [= <- <-].
Qed.

Lemma GetBackend_times_stuck (ber : BackendRouter) (e : error) (n : nat) :
  GetBackend url_Parse ber = Return (ber, Err e) →
  GetBackend_times url_Parse n ber = Return (ber, replicate n (Err e)).
Proof.
  intros HG. induction n as [|n IHn]; simpl; [done|].
  rewrite HG. simpl. by rewrite IHn.
Qed.

(** X2.  [GetBackend] returns an error exactly when every backend of the
    pool is in use and the pool holds more than [maxBackends] backends; the
    error is the one of an empty-handed pool and the router is left as it
    was. *)
Theorem GetBackend_error_iff (ber ber' : BackendRouter) (e : error) :
  GetBackend url_Parse ber = Return (ber', Err e) ↔
  ber' = ber ∧ e = ErrNoBackend ∧
  (∀ i be, backends ber !! i = Some be → InUse be = true) ∧
  (maxBackends ber < Z.of_nat (length (backends ber)))%Z.
Proof.
  split.
  - intros (-> & -> & Hs & Hlt)%GetBackend_Err_inv.
    split_and!; [done..| |done]. by apply firstSpare_None.
  - intros (-> & -> & Hall & Hlt).
    apply GetBackend_exhausted; [|done]. by apply firstSpare_None_iff.
Qed.

(** X3.  Whatever [GetBackend] returns, it leaves the configuration of the
    router alone, removes no backend, adds at most one, and keeps the target
    and the [Alive] flag of every backend at its position. *)
Theorem GetBackend_frame (ber ber' : BackendRouter) (r : result nat) :
  GetBackend url_Parse ber = Return (ber', r) →
  host ber' = host ber ∧ port ber' = port ber ∧ maxBackends ber' = maxBackends ber ∧
  acceptedPaths ber' = acceptedPaths ber ∧ acceptedHeaders ber' = acceptedHeaders ber ∧
  (length (backends ber) ≤ length (backends ber') ≤ S (length (backends ber)))%nat ∧
  ∀ i be, backends ber !! i = Some be →
    ∃ be', backends ber' !! i = Some be' ∧ url be' = url be ∧ Alive be' = Alive be.
Proof.
  unfold GetBackend. destruct (firstSpare (backends ber)) as [index|] eqn:Hs.
  - intros [= <- <-]. simpl. rewrite length_alter. split_and!; [done..|lia|lia|].
    intros i be Hi. destruct (decide (i = index)) as [->|Hne].
    + exists (set_InUse true be). by rewrite list_lookup_alter_eq, Hi.
    + exists be. by rewrite list_lookup_alter_ne.
  - case_match.
    + unfold NewBackend. destruct (url_Parse (target ber)); simpl; [|done].
      intros [= <- <-]. simpl. rewrite length_app. simpl.
      split_and!; [done..|lia|lia|].
      intros i be Hi. exists be. split; [by apply lookup_app_l_Some|done].
    + intros [= <- <-]. split_and!; [done..|lia|lia|]. eauto.
Qed.

(** X4.  A pool whose backends all point at the target of their router,
    ["http://host:port"] as [url.Parse] reads it, stays so through
    [GetBackend], and the backend that is handed out points there. *)
Theorem GetBackend_on_target (ber ber' : BackendRouter) (index : nat) :
  on_target url_Parse ber →
  GetBackend url_Parse ber = Return (ber', Ok index) →
  on_target url_Parse ber' ∧
  ∃ be, backends ber' !! index = Some be ∧ url_Parse (target ber) = Some (url be).
Proof.
  unfold on_target, GetBackend. intros Hon.
  destruct (firstSpare (backends ber)) as [i|] eqn:Hs.
  - intros [= <- <-]. destruct (firstSpare_Some _ _ Hs) as (b & Hb & _). split.
    + intros j be. simpl. destruct (decide (j = i)) as [->|Hne].
      * rewrite list_lookup_alter_eq, Hb. simpl. intros [= <-]. exact (Hon i b Hb).
      * rewrite list_lookup_alter_ne by done. exact (Hon j be).
    + exists (set_InUse true b). simpl. rewrite list_lookup_alter_eq, Hb.
      split; [done|]. exact (Hon i b Hb).
  - case_match; [|done]. unfold NewBackend.
    destruct (url_Parse (target ber)) as [u|] eqn:Hu; simpl; [|done].
    intros [= <- <-]. split.
    + intros j be. change (target (set_backends ber _)) with (target ber).
      rewrite Hu. simpl. intros [Hj|[_ Hj]]%lookup_app_Some.
      * exact (Hon j be Hj).
      * destruct (j - length (backends ber))%nat; [|done]. by injection Hj as <-.
    + exists (mkBackend u false false). split; [|done]. simpl.
      by rewrite lookup_app_r, Nat.sub_diag by lia.
Qed.

Lemma GetBackend_times_add (n k : nat) (ber ber1 ber2 : BackendRouter)
    (rs1 rs2 : list (result nat)) :
  GetBackend_times url_Parse n ber = Return (ber1, rs1) →
  GetBackend_times url_Parse k ber1 = Return (ber2, rs2) →
  GetBackend_times url_Parse (n + k) ber = Return (ber2, (rs1 ++ rs2)%list).
Proof.
  revert ber rs1. induction n as [|n IHn]; intros ber rs1; simpl.
  - by intros [= <- <-].
  - destruct (GetBackend url_Parse ber) as [[b r]|] eqn:HG; simpl; [|done].
    destruct (GetBackend_times url_Parse n b) as [[b' rs]|] eqn:HT; simpl; [|done].
    intros [= <- <-] Hk. by rewrite (IHn _ _ HT Hk).
Qed.

(** X5.  An empty-handed pool stays so: once [GetBackend] has returned its
    error, every later call on the router returns the same error and the
    router never changes again. *)
Theorem GetBackend_error_forever (ber ber' : BackendRouter) (e : error) (n : nat) :
  GetBackend url_Parse ber = Return (ber', Err e) →
  GetBackend_times url_Parse n ber' = Return (ber, replicate n (Err ErrNoBackend)).
Proof.
  intros HG. pose proof HG as (-> & -> & _)%GetBackend_Err_inv.
  by apply GetBackend_times_stuck.
Qed.

(** X6.  The bound that the pool keeps: a pool that holds at most
    [maxBackends + 1] backends still does after any number of calls, and
    the pool of a new router never holds more than [maxBackends + 1]
    backends (none when [maxBackends] is negative). *)
Theorem GetBackend_times_bound (n : nat) (ber ber' : BackendRouter) (rs : list (result nat)) :
  GetBackend_times url_Parse n ber = Return (ber', rs) →
  (Z.of_nat (length (backends ber)) ≤ Z.max 0 (maxBackends ber + 1))%Z →
  maxBackends ber' = maxBackends ber ∧
  (Z.of_nat (length (backends ber')) ≤ Z.max 0 (maxBackends ber + 1))%Z.
Proof.
  revert ber rs. induction n as [|n IHn]; intros ber rs; simpl.
  - by intros [= <- <-].
  - destruct (GetBackend url_Parse ber) as [[b r]|] eqn:HG; simpl; [|done].
    destruct (GetBackend_times url_Parse n b) as [[b' rs']|] eqn:HT; simpl; [|done].
    intros [= <- <-] Hle.
    assert (maxBackends b = maxBackends ber ∧
            (Z.of_nat (length (backends b)) ≤ Z.max 0 (maxBackends ber + 1))%Z)
      as [Hm Hb].
    { revert HG. unfold GetBackend. destruct (firstSpare (backends ber)).
      - intros [= <- <-]. simpl. by rewrite length_alter.
      - destruct (Z.leb_spec (Z.of_nat (length (backends ber))) (maxBackends ber)).
        + unfold NewBackend. destruct (url_Parse (target ber)); simpl; [|done].
          intros [= <- <-]. simpl. rewrite length_app. simpl. lia.
        + by intros [= <- <-]. }
    destruct (IHn b rs' HT) as [Hm' Hb']; [by rewrite Hm|].
    rewrite Hm in Hm', Hb'. done.
Qed.

Lemma GetBackend_pair (ber : BackendRouter) (u : URL) (k : nat) :
  url_Parse (target ber) = Some u →
  backends ber = replicate k (mkBackend u false true) →
  (Z.of_nat k ≤ maxBackends ber)%Z →
  GetBackend_times url_Parse 2 ber =
    Return (set_backends ber (replicate (S k) (mkBackend u false true)), [Ok k; Ok k]).
Proof.
  intros Hu Hbs Hle.
  assert (firstSpare (replicate k (mkBackend u false true)) = None) as Hnone.
  { apply firstSpare_None_iff. by intros i be [-> _]%lookup_replicate. }
  assert (firstSpare (replicate k (mkBackend u false true) ++ [mkBackend u false false])
          = Some k) as Hsome.
  { apply (firstSpare_lowest _ _ (mkBackend u false false)); [|done|].
    - by rewrite lookup_app_r, length_replicate, Nat.sub_diag by (rewrite length_replicate; lia).
    - intros j be' Hlt. rewrite lookup_app_l by (rewrite length_replicate; lia).
      by intros [-> _]%lookup_replicate. }
  assert (GetBackend url_Parse ber =
          Return (set_backends ber
                    (replicate k (mkBackend u false true) ++ [mkBackend u false false]),
                  Ok k)) as H1.
  { unfold GetBackend. rewrite Hbs, Hnone, length_replicate.
    destruct (Z.leb_spec (Z.of_nat k) (maxBackends ber)); [|lia].
    unfold NewBackend. by rewrite Hu. }
  assert (GetBackend url_Parse
            (set_backends ber
               (replicate k (mkBackend u false true) ++ [mkBackend u false false])) =
          Return (set_backends ber (replicate (S k) (mkBackend u false true)), Ok k)) as H2.
  { unfold GetBackend. cbn [backends set_backends]. rewrite Hsome.
    rewrite replicate_S_end.
    rewrite alter_app_r_alt by (rewrite length_replicate; lia).
    by rewrite length_replicate, Nat.sub_diag. }
  cbn [GetBackend_times]. rewrite H1. cbn [bind]. rewrite H2. done.
Qed.

Lemma GetBackend_pairs (n : nat) (ber : BackendRouter) (u : URL) (k : nat) :
  url_Parse (target ber) = Some u →
  backends ber = replicate k (mkBackend u false true) →
  (Z.of_nat (k + n) ≤ maxBackends ber + 1)%Z →
  GetBackend_times url_Parse (2 * n) ber =
    Return (set_backends ber (replicate (k + n) (mkBackend u false true)), twice_each k n).
Proof.
  revert ber k. induction n as [|n IHn]; intros ber k Hu Hbs Hle.
  - simpl. rewrite Nat.add_0_r, <- Hbs. by destruct ber.
  - replace (2 * S n)%nat with (2 + 2 * n)%nat by lia.
    apply (GetBackend_times_add 2 (2 * n) ber
             (set_backends ber (replicate (S k) (mkBackend u false true)))
             _ [Ok k; Ok k] (twice_each (S k) n)).
    + apply GetBackend_pair; [done..|lia].
    + rewrite (IHn _ (S k)); [|done|done|cbn [maxBackends set_backends]; lia].
      replace (S k + n)%nat with (k + S n)%nat by lia. done.
Qed.

(** X7.  How long a new router lasts.  With [maxBackends = m ≥ 0] and a
    target that parses, the first [2 * (m + 1)] calls of [GetBackend] all
    succeed: they make [m + 1] backends and hand each one out twice, once
    when it is made and once more; every call after that returns the
    error. *)
Theorem GetBackend_new_router_lifetime (host : string) (port : Z)
    (acceptedHeaders : gmap string string) (acceptedPaths : gmap string bool)
    (m : nat) (u : URL) (n : nat) :
  let ber := NewBackendRouter host port acceptedHeaders acceptedPaths (Z.of_nat m) in
  let full := set_backends ber (replicate (S m) (mkBackend u false true)) in
  url_Parse (target ber) = Some u →
  GetBackend_times url_Parse (2 * S m) ber = Return (full, twice_each 0 (S m)) ∧
  GetBackend_times url_Parse n full = Return (full, replicate n (Err ErrNoBackend)).
Proof.
  intros ber full Hu.
  assert (GetBackend url_Parse full = Return (full, Err ErrNoBackend)) as Hfull.
  { apply GetBackend_exhausted.
    - unfold full. cbn [backends set_backends]. apply firstSpare_None_iff.
      by intros i be [-> _]%lookup_replicate.
    - unfold full, ber. cbn [backends maxBackends set_backends NewBackendRouter].
      rewrite length_replicate. lia. }
  split.
  - apply (GetBackend_pairs (S m) ber u 0); [done|done|simpl; lia].
  - by apply GetBackend_times_stuck.
Qed.

End Pool.

Lemma GetBackend_first_free_witness :
  backends Run.groupA3 !! 1%nat = Some (Run.be false) ∧
  GetBackend ctl_Parse Run.groupA3 =
    Return (set_backends Run.groupA3
              (<[1%nat := set_InUse true (Run.be false)]> (backends Run.groupA3)), Ok 1%nat).
Proof.
  split; [reflexivity|].
  apply (GetBackend_first_free ctl_Parse Run.groupA3 1 (Run.be false)).
  - reflexivity.
  - reflexivity.
  - intros [|j] be' Hlt; [|lia]. simpl. intros [= <-]. reflexivity.
Defined.

Lemma GetBackend_frame_witness :
  GetBackend ctl_Parse Run.groupA2 = Return (Run.groupA3, Ok 1%nat) ∧
  host Run.groupA3 = host Run.groupA2 ∧ port Run.groupA3 = port Run.groupA2 ∧
  maxBackends Run.groupA3 = maxBackends Run.groupA2 ∧
  acceptedPaths Run.groupA3 = acceptedPaths Run.groupA2 ∧
  acceptedHeaders Run.groupA3 = acceptedHeaders Run.groupA2 ∧
  (length (backends Run.groupA2) ≤ length (backends Run.groupA3)
     ≤ S (length (backends Run.groupA2)))%nat ∧
  ∀ i be, backends Run.groupA2 !! i = Some be →
    ∃ be', backends Run.groupA3 !! i = Some be' ∧ url be' = url be ∧ Alive be' = Alive be.
Proof.
  split; [reflexivity|].
  apply (GetBackend_frame ctl_Parse Run.groupA2 Run.groupA3 (Ok 1%nat)).
  reflexivity.
Defined.

Lemma GetBackend_on_target_witness :
  on_target ctl_Parse Run.groupA2 ∧
  GetBackend ctl_Parse Run.groupA2 = Return (Run.groupA3, Ok 1%nat) ∧
  on_target ctl_Parse Run.groupA3 ∧
  ∃ be, backends Run.groupA3 !! 1%nat = Some be ∧
        ctl_Parse (target Run.groupA2) = Some (url be).
Proof.
  assert (on_target ctl_Parse Run.groupA2) as Hon.
  { intros [|i] be; simpl; [|done]. intros [= <-]. reflexivity. }
  split; [exact Hon|]. split; [reflexivity|].
  apply (GetBackend_on_target ctl_Parse Run.groupA2 Run.groupA3 1 Hon). reflexivity.
Defined.

Lemma GetBackend_error_forever_witness :
  GetBackend ctl_Parse (set_backends Run.groupA [Run.be true; Run.be true])
    = Return (set_backends Run.groupA [Run.be true; Run.be true], Err ErrNoBackend) ∧
  GetBackend_times ctl_Parse 3 (set_backends Run.groupA [Run.be true; Run.be true])
    = Return (set_backends Run.groupA [Run.be true; Run.be true],
              replicate 3 (Err ErrNoBackend)).
Proof.
  split; [reflexivity|].
  apply (GetBackend_error_forever ctl_Parse _ _ ErrNoBackend 3). reflexivity.
Defined.

Lemma GetBackend_times_bound_witness :
  GetBackend_times ctl_Parse 3 Run.groupA = Return (Run.groupA3, [Ok 0; Ok 0; Ok 1]%nat) ∧
  maxBackends Run.groupA3 = maxBackends Run.groupA ∧
  (Z.of_nat (length (backends Run.groupA3)) ≤ Z.max 0 (maxBackends Run.groupA + 1))%Z.
Proof.
  split; [reflexivity|].
  apply (GetBackend_times_bound ctl_Parse 3 Run.groupA Run.groupA3 [Ok 0; Ok 0; Ok 1]%nat).
  - reflexivity.
  - vm_compute. discriminate.
Defined.

Lemma GetBackend_new_router_lifetime_witness :
  ctl_Parse (target (NewBackendRouter "h" 80 ∅ {["/a" := true]} (Z.of_nat 1)))
    = Some "http://h:80" ∧
  GetBackend_times ctl_Parse (2 * 2)
    (NewBackendRouter "h" 80 ∅ {["/a" := true]} (Z.of_nat 1))
    = Return (set_backends (NewBackendRouter "h" 80 ∅ {["/a" := true]} (Z.of_nat 1))
                (replicate 2 (mkBackend "http://h:80" false true)), twice_each 0 2) ∧
  GetBackend_times ctl_Parse 5
    (set_backends (NewBackendRouter "h" 80 ∅ {["/a" := true]} (Z.of_nat 1))
       (replicate 2 (mkBackend "http://h:80" false true)))
    = Return (set_backends (NewBackendRouter "h" 80 ∅ {["/a" := true]} (Z.of_nat 1))
                (replicate 2 (mkBackend "http://h:80" false true)),
              replicate 5 (Err ErrNoBackend)).
Proof.
  split; [reflexivity|].
  apply (GetBackend_new_router_lifetime ctl_Parse "h" 80 ∅ {["/a" := true]} 1
           "http://h:80" 5).
  reflexivity.
Defined.

(** * Further properties of the routing table *)

Section Routing.

Variable ToLower : string → string.

Lemma registerPaths_lookup (ber : loc) (order : list (string * bool))
    (m : gmap string loc) (p : string) :
  registerPaths ber order m !! p =
  if decide (p ∈ order.*1) then Some ber else m !! p.
Proof.
  revert m. induction order as [|[q b] order IHorder]; intros m.
  - cbn [registerPaths]. rewrite fmap_nil.
    destruct (decide (p ∈ [])) as [Hin|_]; [|done]. by apply elem_of_nil in Hin.
  - cbn [registerPaths]. rewrite IHorder, fmap_cons. cbn [fst].
    destruct (decide (p ∈ order.*1)) as [Hin|Hin];
      destruct (decide (p ∈ q :: order.*1)) as [Hin'|Hin']; try done.
    + destruct Hin'. apply elem_of_cons. by right.
    + apply elem_of_cons in Hin' as [->|?]; [|done]. by rewrite lookup_insert_eq.
    + rewrite lookup_insert_ne; [done|]. intros ->. destruct Hin'. apply elem_of_cons. by left.
Qed.

Lemma ranges_over_keys {V : Type} (order : list (string * V)) (m : gmap string V)
    (k : string) :
  ranges_over order m → (k ∈ order.*1 ↔ is_Some (m !! k)).
Proof.
  intros Hover. rewrite list_elem_of_fmap. split.
  - intros ([k' v] & -> & Hin). exists v. by apply (ranges_over_lookup order).
  - intros [v Hv]. exists (k, v). split; [done|]. by apply (ranges_over_lookup order m).
Qed.

Lemma checkPaths_None (l : LBLight) (order : list (string * bool)) :
  checkPaths ToLower l order = None ↔
  ∀ p b, (p, b) ∈ order → pathPrefixToBackendRouter l !! ToLower p = None.
Proof.
  induction order as [|[q b] order IHorder]; simpl.
  - split; [|done]. intros _ ?? Hin. by apply elem_of_nil in Hin.
  - unfold GetBackendRouterByExactPathPrefix.
    destruct (pathPrefixToBackendRouter l !! ToLower q) eqn:Hq.
    + split; [done|]. intros Hall. rewrite (Hall q b) in Hq; [done|by left].
    + rewrite IHorder. split.
      * intros Hall p b' [[= -> ->]|Hin]%elem_of_cons; eauto.
      * intros Hall p b' Hin. apply (Hall p b'). by right.
Qed.

Lemma checkPaths_Some (l : LBLight) (order : list (string * bool)) (e : error) :
  checkPaths ToLower l order = Some e →
  ∃ p b, (p, b) ∈ order ∧ e = ErrConflictPath p ∧
         is_Some (pathPrefixToBackendRouter l !! ToLower p).
Proof.
  induction order as [|[q b] order IHorder]; simpl; [done|].
  unfold GetBackendRouterByExactPathPrefix.
  destruct (pathPrefixToBackendRouter l !! ToLower q) eqn:Hq.
  - intros [= <-]. exists q, b. split_and!; [by left|done|by rewrite Hq].
  - intros (p & b' & Hin & -> & Hp)%IHorder. exists p, b'. split_and!; [by right|done..].
Qed.

Lemma GetBackendRouterByHeader_Ok (l : LBLight) (name value : string) (g : loc) :
  GetBackendRouterByHeader l name value = Ok g ↔ headerCommitted l name value g.
Proof.
  unfold GetBackendRouterByHeader, headerCommitted. split.
  - destruct (headerToBackendRouter l !! name) as [bucket|] eqn:Hn; [|done].
    destruct (bucket !! value) as [g'|] eqn:Hv; [|done].
    intros [= <-]. by exists bucket.
  - intros (bucket & -> & ->). done.
Qed.

Lemma checkHeaders_None (l : LBLight) (order : list (string * string)) :
  checkHeaders l order = None ↔
  ∀ h v, (h, v) ∈ order → ∀ g, ¬ headerCommitted l h v g.
Proof.
  induction order as [|[h0 v0] order IHorder]; simpl.
  - split; [|done]. intros _ ?? Hin. by apply elem_of_nil in Hin.
  - destruct (GetBackendRouterByHeader l h0 v0) as [g|e] eqn:Hg.
    + split; [done|]. intros Hall.
      destruct (Hall h0 v0 (ltac:(by left)) g). by apply GetBackendRouterByHeader_Ok.
    + rewrite IHorder. split.
      * intros Hall h v [[= -> ->]|Hin]%elem_of_cons g; [|by eauto].
        intros Hheld%GetBackendRouterByHeader_Ok. by rewrite Hheld in Hg.
      * intros Hall h v Hin. apply (Hall h v). by right.
Qed.

Lemma checkHeaders_Some (l : LBLight) (order : list (string * string)) (e : error) :
  checkHeaders l order = Some e →
  ∃ h v g, (h, v) ∈ order ∧ e = ErrConflictHeader h v ∧ headerCommitted l h v g.
Proof.
  induction order as [|[h0 v0] order IHorder]; simpl; [done|].
  destruct (GetBackendRouterByHeader l h0 v0) as [g|e'] eqn:Hg.
  - intros [= <-]. exists h0, v0, g. split_and!; [by left|done|].
    by apply GetBackendRouterByHeader_Ok.
  - intros (h & v & g & Hin & -> & Hh)%IHorder. exists h, v, g.
    split_and!; [by right|done..].
Qed.

Lemma AddBackendRouter_accepted_inv (o : ranges) (l l' : LBLight) (ber : loc)
    (r : BackendRouter) :
  AddBackendRouter ToLower o l ber r = (l', None) →
  checkPaths ToLower l (checkPaths_order o) = None ∧
  checkHeaders l (checkHeaders_order o) = None ∧
  lport l' = lport l ∧
  pathPrefixToBackendRouter l' =
    registerPaths ber (registerPaths_order o) (pathPrefixToBackendRouter l).
Proof.
  unfold AddBackendRouter.
  destruct (checkPaths ToLower l (checkPaths_order o)); [done|].
  destruct (checkHeaders l (checkHeaders_order o)); [done|].
  by intros [= <-].
Qed.

(** X8.  When a registration is accepted.  [AddBackendRouter] returns no
    error exactly when the table has no entry under the lower-cased form of
    any path the router accepts, and holds none of the header pairs the
    router accepts. *)
Theorem AddBackendRouter_accepts_iff (o : ranges) (l : LBLight) (ber : loc)
    (r : BackendRouter) :
  ranges_ok o r →
  (AddBackendRouter ToLower o l ber r).2 = None ↔
  (∀ p, is_Some (acceptedPaths r !! p) →
        pathPrefixToBackendRouter l !! ToLower p = None) ∧
  (∀ h v, acceptedHeaders r !! h = Some v → ∀ g, ¬ headerCommitted l h v g).
Proof.
  intros (Hcp & Hch & _ & _). unfold AddBackendRouter.
  destruct (checkPaths ToLower l (checkPaths_order o)) as [e|] eqn:Hp.
  - split; [done|]. intros [Hpaths _].
    apply checkPaths_Some in Hp as (p & b & Hin & _ & [g Hg]).
    rewrite Hpaths in Hg; [done|]. exists b. by apply (ranges_over_lookup _ _ _ _ Hcp).
  - destruct (checkHeaders l (checkHeaders_order o)) as [e|] eqn:Hh.
    + split; [done|]. intros [_ Hheaders].
      apply checkHeaders_Some in Hh as (h & v & g & Hin & _ & Hheld).
      destruct (Hheaders h v (proj1 (ranges_over_lookup _ _ _ _ Hch) Hin) g Hheld).
    + split; [intros _|done]. split.
      * intros p [b Hb]. apply (proj1 (checkPaths_None _ _) Hp p b).
        by apply (ranges_over_lookup _ _ _ _ Hcp).
      * intros h v Hv. apply (proj1 (checkHeaders_None _ _) Hh h v).
        by apply (ranges_over_lookup _ _ _ _ Hch).
Qed.

(** X9.  What a refused registration reports.  The error names a path that
    the router accepts and whose lower-cased form is in the table; or, when
    no accepted path is in conflict, a header pair that the router accepts
    and the table holds.  In both cases the table is left as it was. *)
Theorem AddBackendRouter_refusal (o : ranges) (l : LBLight) (ber : loc)
    (r : BackendRouter) (e : error) :
  ranges_ok o r →
  (AddBackendRouter ToLower o l ber r).2 = Some e →
  (AddBackendRouter ToLower o l ber r).1 = l ∧
  ((∃ p, e = ErrConflictPath p ∧ is_Some (acceptedPaths r !! p) ∧
         is_Some (pathPrefixToBackendRouter l !! ToLower p)) ∨
   (∃ h v g, e = ErrConflictHeader h v ∧ acceptedHeaders r !! h = Some v ∧
             headerCommitted l h v g ∧
             ∀ p, is_Some (acceptedPaths r !! p) →
                  pathPrefixToBackendRouter l !! ToLower p = None)).
Proof.
  intros (Hcp & Hch & _ & _). unfold AddBackendRouter.
  destruct (checkPaths ToLower l (checkPaths_order o)) as [e'|] eqn:Hp.
  - intros [= <-]. split; [done|]. left.
    apply checkPaths_Some in Hp as (p & b & Hin & -> & Hg).
    exists p. split_and!; [done| |done]. exists b.
    by apply (ranges_over_lookup _ _ _ _ Hcp).
  - destruct (checkHeaders l (checkHeaders_order o)) as [e'|] eqn:Hh; [|done].
    intros [= <-]. split; [done|]. right.
    apply checkHeaders_Some in Hh as (h & v & g & Hin & -> & Hheld).
    exists h, v, g. split_and!; [done| |done|].
    + by apply (ranges_over_lookup _ _ _ _ Hch).
    + intros p [b Hb]. apply (proj1 (checkPaths_None _ _) Hp p b).
      by apply (ranges_over_lookup _ _ _ _ Hcp).
Qed.

(** X10.  What an accepted registration stores.  Every path the router
    accepts maps, as written, to the router; every other key of the path
    table keeps what it had; the port is unchanged. *)
Theorem AddBackendRouter_commits_paths (o : ranges) (l l' : LBLight) (ber : loc)
    (r : BackendRouter) :
  ranges_ok o r →
  AddBackendRouter ToLower o l ber r = (l', None) →
  lport l' = lport l ∧
  (∀ p, is_Some (acceptedPaths r !! p) → pathPrefixToBackendRouter l' !! p = Some ber) ∧
  (∀ p, acceptedPaths r !! p = None →
        pathPrefixToBackendRouter l' !! p = pathPrefixToBackendRouter l !! p).
Proof.
  intros (_ & _ & Hrp & _) (_ & _ & Hport & ->)%AddBackendRouter_accepted_inv.
  split_and!; [done| |].
  - intros p Hp. rewrite registerPaths_lookup.
    by rewrite decide_True by by apply (ranges_over_keys _ _ _ Hrp).
  - intros p Hp. rewrite registerPaths_lookup.
    rewrite decide_False; [done|].
    rewrite (ranges_over_keys _ _ _ Hrp), Hp. by intros [? ?].
Qed.

(** X11.  No lower-case prefix changes hands.  When every path the router
    accepts is its own lower-cased form, an accepted registration leaves
    every entry that the path table had with its router. *)
Theorem AddBackendRouter_keeps_owners (o : ranges) (l l' : LBLight) (ber : loc)
    (r : BackendRouter) :
  ranges_ok o r →
  (∀ p, is_Some (acceptedPaths r !! p) → ToLower p = p) →
  AddBackendRouter ToLower o l ber r = (l', None) →
  ∀ p g, pathPrefixToBackendRouter l !! p = Some g →
         pathPrefixToBackendRouter l' !! p = Some g.
Proof.
  intros (Hcp & _ & Hrp & _) Hlower (Hc & _ & _ & ->)%AddBackendRouter_accepted_inv p g Hp.
  rewrite registerPaths_lookup.
  destruct (decide (p ∈ (registerPaths_order o).*1)) as [Hin|_]; [|done].
  apply (ranges_over_keys _ _ _ Hrp) in Hin. pose proof Hin as [b Hb].
  apply (ranges_over_lookup _ _ _ _ Hcp) in Hb.
  pose proof (proj1 (checkPaths_None _ _) Hc p b Hb) as Hfree.
  rewrite (Hlower p Hin) in Hfree. congruence.
Qed.

(** X12.  A stored lower-case prefix is defended.  After an accepted
    registration of a router that accepts [p], with [p] its own lower-cased
    form, the registration of any router that accepts a path whose
    lower-cased form is [p] is refused with a path conflict, and the table
    is left as it was. *)
Theorem AddBackendRouter_second_refused (o o2 : ranges) (l l' : LBLight)
    (ber ber2 : loc) (r r2 : BackendRouter) (p p2 : string) :
  ranges_ok o r → ranges_ok o2 r2 →
  AddBackendRouter ToLower o l ber r = (l', None) →
  is_Some (acceptedPaths r !! p) → ToLower p = p →
  is_Some (acceptedPaths r2 !! p2) → ToLower p2 = p →
  ∃ q, AddBackendRouter ToLower o2 l' ber2 r2 = (l', Some (ErrConflictPath q)).
Proof.
  intros (_ & _ & Hrp & _) (Hcp & _) (_ & _ & _ & Hnew)%AddBackendRouter_accepted_inv
    Hp Hlow Hp2 Hlow2.
  unfold AddBackendRouter.
  destruct (checkPaths ToLower l' (checkPaths_order o2)) as [e|] eqn:Hc.
  - apply checkPaths_Some in Hc as (q & b & _ & -> & _). by exists q.
  - destruct Hp2 as [b2 Hb2].
    pose proof (proj1 (checkPaths_None _ _) Hc p2 b2
                  (proj2 (ranges_over_lookup _ _ _ _ Hcp) Hb2)) as Hfree.
    rewrite Hlow2, Hnew, registerPaths_lookup in Hfree.
    by rewrite decide_True in Hfree by by apply (ranges_over_keys _ _ _ Hrp).
Qed.

(** X13.  From a new table, whatever routers are registered and in whatever
    order, no header lookup ever succeeds, and no registration is ever
    refused for a header. *)
Theorem AddBackendRouters_no_header (calls : list (ranges * loc * BackendRouter))
    (port : Z) :
  (∀ name value,
     GetBackendRouterByHeader (AddBackendRouters ToLower calls (NewLBLight port)) name value
     = Err (ErrNoHeader name value)) ∧
  (∀ o ber r h v,
     (AddBackendRouter ToLower o (AddBackendRouters ToLower calls (NewLBLight port)) ber r).2
     ≠ Some (ErrConflictHeader h v)).
Proof.
  assert (∀ l, headerToBackendRouter l = ∅ →
               headerToBackendRouter (AddBackendRouters ToLower calls l) = ∅) as Hempty.
  { induction calls as [|[[o ber] r] calls IHcalls]; intros l Hl; simpl; [done|].
    apply IHcalls. apply dom_empty_iff_L.
    by rewrite AddBackendRouter_headers_dom, Hl, dom_empty_L. }
  specialize (Hempty (NewLBLight port) eq_refl).
  assert (∀ name value g,
    ¬ headerCommitted (AddBackendRouters ToLower calls (NewLBLight port)) name value g)
    as Hnone.
  { intros name value g (bucket & Hb & _). by rewrite Hempty, lookup_empty in Hb. }
  split.
  - intros name value.
    destruct (GetBackendRouterByHeader _ name value) as [g|e] eqn:Hg.
    + by apply GetBackendRouterByHeader_Ok, Hnone in Hg.
    + revert Hg. unfold GetBackendRouterByHeader. by rewrite Hempty, lookup_empty.
  - intros o ber r h v. unfold AddBackendRouter.
    destruct (checkPaths ToLower _ (checkPaths_order o)) as [e|] eqn:Hc.
    + apply checkPaths_Some in Hc as (q & b & _ & -> & _). done.
    + destruct (checkHeaders _ (checkHeaders_order o)) as [e|] eqn:Hh; [|done].
      apply checkHeaders_Some in Hh as (h' & v' & g & _ & _ & Hheld).
      by apply Hnone in Hheld.
Qed.

End Routing.

Lemma AddBackendRouter_accepts_iff_witness :
  ranges_ok (in_order Run.groupA) Run.groupA ∧
  ((AddBackendRouter ascii_ToLower (in_order Run.groupA) (NewLBLight 443) 0%nat Run.groupA).2
     = None ↔
   (∀ p, is_Some (acceptedPaths Run.groupA !! p) →
         pathPrefixToBackendRouter (NewLBLight 443) !! ascii_ToLower p = None) ∧
   (∀ h v, acceptedHeaders Run.groupA !! h = Some v →
           ∀ g, ¬ headerCommitted (NewLBLight 443) h v g)).
Proof.
  assert (ranges_ok (in_order Run.groupA) Run.groupA) as Hok.
  { unfold ranges_ok, ranges_over. repeat split; reflexivity. }
  split; [exact Hok|].
  exact (AddBackendRouter_accepts_iff ascii_ToLower _ (NewLBLight 443) 0%nat Run.groupA Hok).
Defined.

Lemma AddBackendRouter_refusal_witness :
  ranges_ok (in_order Run.groupA) Run.groupA ∧
  (AddBackendRouter ascii_ToLower (in_order Run.groupA)
     (Run.register (NewLBLight 443) 0%nat Run.groupA) 1%nat Run.groupA).2
    = Some (ErrConflictPath "/a") ∧
  (AddBackendRouter ascii_ToLower (in_order Run.groupA)
     (Run.register (NewLBLight 443) 0%nat Run.groupA) 1%nat Run.groupA).1
    = Run.register (NewLBLight 443) 0%nat Run.groupA.
Proof.
  assert (ranges_ok (in_order Run.groupA) Run.groupA) as Hok.
  { unfold ranges_ok, ranges_over. repeat split; reflexivity. }
  split; [exact Hok|]. split; [reflexivity|].
  apply (AddBackendRouter_refusal ascii_ToLower _ _ 1%nat Run.groupA
           (ErrConflictPath "/a") Hok).
  reflexivity.
Defined.

Lemma AddBackendRouter_commits_paths_witness :
  ranges_ok (in_order Run.groupA) Run.groupA ∧
  AddBackendRouter ascii_ToLower (in_order Run.groupA) (NewLBLight 443) 0%nat Run.groupA
    = (mkLBLight 443 {["/a" := 0%nat]} ∅, None) ∧
  ∀ p, is_Some (acceptedPaths Run.groupA !! p) →
       pathPrefixToBackendRouter (mkLBLight 443 {["/a" := 0%nat]} ∅) !! p = Some 0%nat.
Proof.
  assert (ranges_ok (in_order Run.groupA) Run.groupA) as Hok.
  { unfold ranges_ok, ranges_over. repeat split; reflexivity. }
  split; [exact Hok|]. split; [reflexivity|].
  apply (AddBackendRouter_commits_paths ascii_ToLower _ (NewLBLight 443) _ 0%nat
           Run.groupA Hok).
  reflexivity.
Defined.

Lemma AddBackendRouter_keeps_owners_witness :
  ranges_ok (in_order Run.apiV2) Run.apiV2 ∧
  AddBackendRouter ascii_ToLower (in_order Run.apiV2)
    (Run.register (NewLBLight 443) 0%nat Run.api) 1%nat Run.apiV2
    = (Run.apiTable, None) ∧
  ∀ p g, pathPrefixToBackendRouter (Run.register (NewLBLight 443) 0%nat Run.api) !! p = Some g →
         pathPrefixToBackendRouter Run.apiTable !! p = Some g.
Proof.
  assert (ranges_ok (in_order Run.apiV2) Run.apiV2) as Hok.
  { unfold ranges_ok, ranges_over. repeat split; reflexivity. }
  split; [exact Hok|]. split; [reflexivity|].
  apply (AddBackendRouter_keeps_owners ascii_ToLower _ _ _ 1%nat Run.apiV2 Hok).
  - intros p [b Hb]. change (acceptedPaths Run.apiV2) with ({["/api/v2" := true]} : gmap string bool) in Hb.
    apply lookup_singleton_Some in Hb as [<- _]. reflexivity.
  - reflexivity.
Defined.

Lemma AddBackendRouter_second_refused_witness :
  ranges_ok (in_order Run.groupA) Run.groupA ∧
  ranges_ok (in_order Run.upperA) Run.upperA ∧
  ascii_ToLower "/A" = "/a" ∧
  ∃ q, AddBackendRouter ascii_ToLower (in_order Run.upperA)
         (mkLBLight 443 {["/a" := 0%nat]} ∅) 1%nat Run.upperA
       = (mkLBLight 443 {["/a" := 0%nat]} ∅, Some (ErrConflictPath q)).
Proof.
  assert (ranges_ok (in_order Run.groupA) Run.groupA) as Hok.
  { unfold ranges_ok, ranges_over. repeat split; reflexivity. }
  assert (ranges_ok (in_order Run.upperA) Run.upperA) as Hok2.
  { unfold ranges_ok, ranges_over. repeat split; reflexivity. }
  split; [exact Hok|]. split; [exact Hok2|]. split; [reflexivity|].
  apply (AddBackendRouter_second_refused ascii_ToLower _ _ (NewLBLight 443) _
           0%nat 1%nat Run.groupA Run.upperA "/a" "/A" Hok Hok2).
  - reflexivity.
  - exists true. reflexivity.
  - reflexivity.
  - exists true. reflexivity.
  - reflexivity.
Defined.

(** * Further properties of resolution and dispatch *)

Section Dispatch.

Variable ToLower : string → string.
Variable url_Parse : string → option URL.
Variable ServeHTTP : URL → Request → ResponseWriter → ResponseWriter * bool.

Lemma firstPrefix_agree (order : list (string * loc)) (m : gmap string loc)
    (lowerPath p : string) (g : loc) :
  ranges_over order m →
  m !! p = Some g → HasPrefix lowerPath p = true →
  (∀ p' g', m !! p' = Some g' → HasPrefix lowerPath p' = true → g' = g) →
  firstPrefix order lowerPath = Some g.
Proof.
  intros Hover Hp Hm Hagree.
  destruct (firstPrefix order lowerPath) as [g0|] eqn:Hf.
  - apply firstPrefix_Some in Hf as (before & q & after & Ho & Hq & _).
    f_equal. apply (Hagree q); [|done].
    apply (ranges_over_lookup order); [done|].
    rewrite Ho. apply elem_of_app. right. apply elem_of_cons. by left.
  - pose proof (proj1 (firstPrefix_None _ _) Hf p g
                  (proj2 (ranges_over_lookup _ _ _ _ Hover) Hp)) as Hno.
    by rewrite Hno in Hm.
Qed.

(** X14.  When the order of the loop does not matter.  If a registered
    prefix starts the lower-cased path, and every registered prefix that
    does so belongs to the same router, [GetBackendRouterByPathPrefix]
    returns that router in whatever order the table is ranged over. *)
Theorem GetBackendRouterByPathPrefix_agreeing (l : LBLight)
    (order : list (string * loc)) (path p : string) (g : loc) :
  ranges_over order (pathPrefixToBackendRouter l) →
  pathPrefixToBackendRouter l !! p = Some g →
  HasPrefix (ToLower path) p = true →
  (∀ p' g', pathPrefixToBackendRouter l !! p' = Some g' →
            HasPrefix (ToLower path) p' = true → g' = g) →
  GetBackendRouterByPathPrefix ToLower order path = Ok g.
Proof.
  intros Hover Hp Hm Hagree. unfold GetBackendRouterByPathPrefix.
  by rewrite (firstPrefix_agree order _ _ p g Hover Hp Hm Hagree).
Qed.

(** X15.  When it does.  For every registered prefix that starts the
    lower-cased path there is an order of the loop in which
    [GetBackendRouterByPathPrefix] returns the router of that prefix: any of
    the matching routers may be the one that serves the request. *)
Theorem GetBackendRouterByPathPrefix_any_match (l : LBLight) (path p : string) (g : loc) :
  pathPrefixToBackendRouter l !! p = Some g →
  HasPrefix (ToLower path) p = true →
  ∃ order, ranges_over order (pathPrefixToBackendRouter l) ∧
           GetBackendRouterByPathPrefix ToLower order path = Ok g.
Proof.
  intros Hp Hm.
  exists ((p, g) :: map_to_list (delete p (pathPrefixToBackendRouter l))). split.
  - unfold ranges_over. by apply map_to_list_delete.
  - unfold GetBackendRouterByPathPrefix. simpl. by rewrite Hm.
Qed.

(** X16.  Registration, then resolution.  After an accepted registration
    of a router that accepts [p], a path whose lower-cased form starts with
    [p] as written always resolves; it resolves to that router when no
    prefix that was in the table before starts it. *)
Theorem AddBackendRouter_then_resolves (o : ranges) (l l' : LBLight) (ber : loc)
    (r : BackendRouter) (order : list (string * loc)) (path p : string) :
  ranges_ok o r →
  AddBackendRouter ToLower o l ber r = (l', None) →
  is_Some (acceptedPaths r !! p) →
  HasPrefix (ToLower path) p = true →
  ranges_over order (pathPrefixToBackendRouter l') →
  (∃ g, GetBackendRouterByPathPrefix ToLower order path = Ok g) ∧
  ((∀ p' g', pathPrefixToBackendRouter l !! p' = Some g' →
             HasPrefix (ToLower path) p' = false) →
   GetBackendRouterByPathPrefix ToLower order path = Ok ber).
Proof.
  intros (_ & _ & Hrp & _) Hadd Hp Hm Hover.
  assert (∀ q, pathPrefixToBackendRouter l' !! q =
               if decide (q ∈ (registerPaths_order o).*1) then Some ber
               else pathPrefixToBackendRouter l !! q) as Hl'.
  { intros q. unfold AddBackendRouter in Hadd.
    destruct (checkPaths ToLower l (checkPaths_order o)); [done|].
    destruct (checkHeaders l (checkHeaders_order o)); [done|].
    injection Hadd as <-. simpl. apply registerPaths_lookup. }
  assert (pathPrefixToBackendRouter l' !! p = Some ber) as Hnew.
  { rewrite Hl'. by rewrite decide_True by by apply (ranges_over_keys _ _ _ Hrp). }
  unfold GetBackendRouterByPathPrefix. split.
  - destruct (firstPrefix order (ToLower path)) as [g|] eqn:Hf; [by exists g|].
    pose proof (proj1 (firstPrefix_None _ _) Hf p ber
                  (proj2 (ranges_over_lookup _ _ _ _ Hover) Hnew)) as Hno.
    by rewrite Hno in Hm.
  - intros Hold.
    rewrite (firstPrefix_agree order _ _ p ber Hover Hnew Hm); [done|].
    intros p' g'. rewrite Hl'. case_decide; [by intros [= <-]|].
    intros Hp' Hm'. by rewrite (Hold _ _ Hp') in Hm'.
Qed.

(** X17.  A request touches one router.  Whatever the handler does, every
    router of the store other than the one the path resolves to is left as
    it was, and no router is added or removed. *)
Theorem handleRequestsAndRedirect_other_routers (order : list (string * loc))
    (routers : gmap loc BackendRouter) (res : ResponseWriter) (req : Request)
    (hd : handled) :
  handleRequestsAndRedirect ToLower url_Parse ServeHTTP order routers res req = Return hd →
  dom (h_routers hd) = dom routers ∧
  ∀ r, GetBackendRouterByPathPrefix ToLower order (URL_Path req) ≠ Ok r →
       h_routers hd !! r = routers !! r.
Proof.
  unfold handleRequestsAndRedirect, getBackend.
  destruct (GetBackendRouterByPathPrefix ToLower order (URL_Path req)) as [r0|e]; simpl;
    [|by intros [= <-]].
  destruct (routers !! r0) as [ber|] eqn:Hr; simpl; [|by intros [= <-]].
  destruct (GetBackend url_Parse ber) as [[ber' rr]|code]; simpl; [|done].
  assert (dom (<[r0 := ber']> routers) = dom routers ∧
          ∀ r, Ok r0 ≠ Ok r → <[r0 := ber']> routers !! r = routers !! r) as Hframe.
  { split.
    - rewrite dom_insert_L. apply elem_of_dom_2 in Hr.
      apply subseteq_union_1_L. by apply singleton_subseteq_l.
    - intros r Hne. apply lookup_insert_ne. by intros ->. }
  destruct rr as [index|e]; [|by intros [= <-]].
  destruct (backendAt (<[r0:=ber']> routers) (r0, index)); [|by intros [= <-]].
  destruct (ServeHTTP (url b) req res). by intros [= <-].
Qed.

(** X18.  Where a request goes.  When the path resolves to a router whose
    backends all point at its target ["http://host:port"], which parses,
    and the router has a spare backend or room for one, the handler makes
    the forwarding call on that target: the response holds what that call
    wrote, nothing is logged, and the backends of the router still all
    point at its target. *)
Theorem handleRequestsAndRedirect_forwards (order : list (string * loc))
    (routers : gmap loc BackendRouter) (res : ResponseWriter) (req : Request)
    (r : loc) (ber : BackendRouter) (u : URL) :
  GetBackendRouterByPathPrefix ToLower order (URL_Path req) = Ok r →
  routers !! r = Some ber →
  on_target url_Parse ber →
  url_Parse (target ber) = Some u →
  ((∃ i be, backends ber !! i = Some be ∧ InUse be = false) ∨
   (Z.of_nat (length (backends ber)) ≤ maxBackends ber)%Z) →
  ∃ ber',
    handleRequestsAndRedirect ToLower url_Parse ServeHTTP order routers res req =
      Return (mkHandled (<[r := ber']> routers) (ServeHTTP u req res).1 []
                        (ServeHTTP u req res).2) ∧
    on_target url_Parse ber'.
Proof.
  intros Hres Hr Hon Hu Hroom.
  assert (∃ ber' index be,
            GetBackend url_Parse ber = Return (ber', Ok index) ∧
            backends ber' !! index = Some be ∧ url be = u ∧
            on_target url_Parse ber') as (ber' & index & be & HG & Hbe & Hurl & Hon').
  { unfold GetBackend. destruct (firstSpare (backends ber)) as [i|] eqn:Hs.
    - destruct (firstSpare_Some _ _ Hs) as (b & Hb & _).
      eexists _, i, (set_InUse true b). split_and!; [done| | |].
      + simpl. by rewrite list_lookup_alter_eq, Hb.
      + simpl. pose proof (Hon i b Hb) as Hb'. rewrite Hu in Hb'. by injection Hb'.
      + intros j be'. change (target (set_backends ber _)) with (target ber). simpl.
        destruct (decide (j = i)) as [->|Hne].
        * rewrite list_lookup_alter_eq, Hb. simpl. intros [= <-]. exact (Hon i b Hb).
        * rewrite list_lookup_alter_ne by done. exact (Hon j be').
    - destruct Hroom as [(i & b & Hb & Hfree)|Hle].
      { by rewrite (firstSpare_None _ Hs i b Hb) in Hfree. }
      destruct (Z.leb_spec (Z.of_nat (length (backends ber))) (maxBackends ber)); [|lia].
      unfold NewBackend. rewrite Hu. simpl.
      eexists _, _, (mkBackend u false false). split_and!; [done| |done|].
      + simpl. by rewrite lookup_app_r, Nat.sub_diag by lia.
      + intros j be'. change (target (set_backends ber _)) with (target ber). simpl.
        intros [Hj|[_ Hj]]%lookup_app_Some; [exact (Hon j be' Hj)|].
        destruct (j - length (backends ber))%nat; [|done]. by injection Hj as <-. }
  exists ber'. split; [|done].
  unfold handleRequestsAndRedirect, getBackend. rewrite Hres, Hr. simpl.
  rewrite HG. simpl. unfold backendAt. simpl. rewrite lookup_insert_eq. simpl.
  rewrite Hbe, Hurl. by destruct (ServeHTTP u req res).
Qed.

End Dispatch.

Lemma GetBackendRouterByPathPrefix_agreeing_witness :
  ranges_over [("/a", 0%nat)] (pathPrefixToBackendRouter (mkLBLight 443 {["/a" := 0%nat]} ∅)) ∧
  HasPrefix (ascii_ToLower "/a/x") "/a" = true ∧
  GetBackendRouterByPathPrefix ascii_ToLower [("/a", 0%nat)] "/a/x" = Ok 0%nat.
Proof.
  assert (ranges_over [("/a", 0%nat)]
            (pathPrefixToBackendRouter (mkLBLight 443 {["/a" := 0%nat]} ∅))) as Hover.
  { unfold ranges_over. reflexivity. }
  split; [exact Hover|]. split; [reflexivity|].
  apply (GetBackendRouterByPathPrefix_agreeing ascii_ToLower _ _ "/a/x" "/a" 0%nat Hover).
  - reflexivity.
  - reflexivity.
  - intros p' g' Hp' _. simpl in Hp'.
    apply lookup_singleton_Some in Hp' as [_ <-]. reflexivity.
Defined.

Lemma GetBackendRouterByPathPrefix_any_match_witness :
  pathPrefixToBackendRouter Run.apiTable !! "/api" = Some 0%nat ∧
  HasPrefix (ascii_ToLower "/api/v2/users") "/api" = true ∧
  ∃ order, ranges_over order (pathPrefixToBackendRouter Run.apiTable) ∧
           GetBackendRouterByPathPrefix ascii_ToLower order "/api/v2/users" = Ok 0%nat.
Proof.
  split; [reflexivity|]. split; [reflexivity|].
  apply (GetBackendRouterByPathPrefix_any_match ascii_ToLower Run.apiTable
           "/api/v2/users" "/api" 0%nat); reflexivity.
Defined.

Lemma AddBackendRouter_then_resolves_witness :
  ranges_ok (in_order Run.groupA) Run.groupA ∧
  AddBackendRouter ascii_ToLower (in_order Run.groupA) (NewLBLight 443) 0%nat Run.groupA
    = (mkLBLight 443 {["/a" := 0%nat]} ∅, None) ∧
  (∃ g, GetBackendRouterByPathPrefix ascii_ToLower [("/a", 0%nat)] "/a/x" = Ok g) ∧
  ((∀ p' g', pathPrefixToBackendRouter (NewLBLight 443) !! p' = Some g' →
             HasPrefix (ascii_ToLower "/a/x") p' = false) →
   GetBackendRouterByPathPrefix ascii_ToLower [("/a", 0%nat)] "/a/x" = Ok 0%nat).
Proof.
  assert (ranges_ok (in_order Run.groupA) Run.groupA) as Hok.
  { unfold ranges_ok, ranges_over. repeat split; reflexivity. }
  split; [exact Hok|]. split; [reflexivity|].
  apply (AddBackendRouter_then_resolves ascii_ToLower _ (NewLBLight 443)
           (mkLBLight 443 {["/a" := 0%nat]} ∅) 0%nat
           Run.groupA [("/a", 0%nat)] "/a/x" "/a" Hok).
  - reflexivity.
  - exists true. reflexivity.
  - reflexivity.
  - unfold ranges_over. reflexivity.
Defined.

Lemma handleRequestsAndRedirect_other_routers_witness :
  handleRequestsAndRedirect ascii_ToLower ctl_Parse Run.upstream [("/a", 0%nat)]
    {[0%nat := Run.groupA1; 1%nat := Run.api]} [] (Run.get "/a/x")
    = Return (mkHandled {[0%nat := Run.groupA2; 1%nat := Run.api]} ["200 OK"] [] true) ∧
  dom (h_routers (mkHandled {[0%nat := Run.groupA2; 1%nat := Run.api]} ["200 OK"] [] true))
    = dom ({[0%nat := Run.groupA1; 1%nat := Run.api]} : gmap loc BackendRouter) ∧
  ∀ r, GetBackendRouterByPathPrefix ascii_ToLower [("/a", 0%nat)]
         (URL_Path (Run.get "/a/x")) ≠ Ok r →
       h_routers (mkHandled {[0%nat := Run.groupA2; 1%nat := Run.api]} ["200 OK"] [] true) !! r
       = ({[0%nat := Run.groupA1; 1%nat := Run.api]} : gmap loc BackendRouter) !! r.
Proof.
  split; [reflexivity|].
  apply (handleRequestsAndRedirect_other_routers ascii_ToLower ctl_Parse Run.upstream
           [("/a", 0%nat)] {[0%nat := Run.groupA1; 1%nat := Run.api]} [] (Run.get "/a/x")).
  reflexivity.
Defined.

Lemma handleRequestsAndRedirect_forwards_witness :
  on_target ctl_Parse Run.groupA ∧
  ∃ ber',
    handleRequestsAndRedirect ascii_ToLower ctl_Parse Run.upstream [("/a", 0%nat)]
      {[0%nat := Run.groupA]} [] (Run.get "/a/x") =
      Return (mkHandled (<[0%nat := ber']> {[0%nat := Run.groupA]})
                (Run.upstream "http://h:80" (Run.get "/a/x") []).1 []
                (Run.upstream "http://h:80" (Run.get "/a/x") []).2) ∧
    on_target ctl_Parse ber'.
Proof.
  assert (on_target ctl_Parse Run.groupA) as Hon.
  { intros i be Hbe. destruct i; discriminate Hbe. }
  split; [exact Hon|].
  apply (handleRequestsAndRedirect_forwards ascii_ToLower ctl_Parse Run.upstream
           [("/a", 0%nat)] {[0%nat := Run.groupA]} [] (Run.get "/a/x") 0%nat Run.groupA
           "http://h:80").
  - reflexivity.
  - reflexivity.
  - exact Hon.
  - reflexivity.
  - right. simpl. lia.
Defined.

(** * Header pairs after registration *)




